(** * AutoDev python backend: the health service of [backend-python/main.py]

    The program is a FastAPI application with one permissive CORS middleware
    and one route, [GET /health], started by uvicorn when the module is run
    as a script.  The development has these layers:

    - [Text], [Http]: byte-string helpers, requests and responses;
    - [Starlette], [FastAPI], [Process]: the semantics of the library calls
      the program makes (middleware dispatch, routing, redirects, exception
      handling, printing, server start-up).  The routing and CORS code is
      transcribed from starlette 0.46.2 and fastapi 0.115.11; the program
      pins no release, so the properties below are kept to what does not
      hinge on one release;
    - [Main]: the program itself, statement by statement;
    - [Service], [Samples], [Laws]: the service as a function of the
      request, what is observed of a run, and example inputs;
    - the properties, by topic.

    Requests are handled in a state monad over the application's state: the
    schema cache of the application object and the globals a handler could
    reach. *)

From Stdlib Require Import String Ascii List Bool Arith PeanoNat NArith ZArith Lia.
From Stdlib Require Import DecimalString.
Import ListNotations.
Local Open Scope string_scope.
Local Open Scope nat_scope.
Local Open Scope list_scope.

(** ** Text helpers (Python [str] and [bytes] methods; a [str] is held as
    its UTF-8 bytes, header values as the bytes on the wire) *)

Module Text.

(** [str.lower] on a latin-1 character: A-Z and the accented capitals
    U+00C0..U+00DE (U+00D7, the multiplication sign, excepted) move by 32. *)
Definition lower_ascii (c : ascii) : ascii :=
  let n := nat_of_ascii c in
  if ((65 <=? n) && (n <=? 90))
     || ((192 <=? n) && (n <=? 222) && negb (n =? 215))
  then ascii_of_nat (n + 32) else c.

Fixpoint lower (s : string) : string :=
  match s with
  | EmptyString => EmptyString
  | String c s' => String (lower_ascii c) (lower s')
  end.

(** [str.isspace] on a latin-1 character. *)
Definition is_space (c : ascii) : bool :=
  let n := nat_of_ascii c in
  ((9 <=? n) && (n <=? 13)) || ((28 <=? n) && (n <=? 32))
  || (n =? 133) || (n =? 160).

Fixpoint lstrip (s : string) : string :=
  match s with
  | EmptyString => EmptyString
  | String c s' => if is_space c then lstrip s' else s
  end.

Fixpoint rstrip (s : string) : string :=
  match s with
  | EmptyString => EmptyString
  | String c s' =>
      match rstrip s' with
      | EmptyString => if is_space c then EmptyString else String c EmptyString
      | t => String c t
      end
  end.

(** [s.strip()] *)
Definition strip (s : string) : string := rstrip (lstrip s).

(** [s.rstrip("/")]: every trailing slash is removed. *)
Fixpoint rstrip_slash (s : string) : string :=
  match s with
  | EmptyString => EmptyString
  | String c s' =>
      match rstrip_slash s' with
      | EmptyString => if Ascii.eqb c "/"%char then EmptyString else String c EmptyString
      | t => String c t
      end
  end.

(** [s.endswith("/")] *)
Fixpoint ends_with_slash (s : string) : bool :=
  match s with
  | EmptyString => false
  | String c EmptyString => Ascii.eqb c "/"%char
  | String _ s' => ends_with_slash s'
  end.

(** [s.split(",")] *)
Fixpoint split_comma (s : string) : list string :=
  match s with
  | EmptyString => [EmptyString]
  | String c s' =>
      if Ascii.eqb c ","%char
      then EmptyString :: split_comma s'
      else match split_comma s' with
           | [] => [String c EmptyString]
           | w :: ws => String c w :: ws
           end
  end.

(** [sep.join(l)] *)
Definition join (sep : string) (l : list string) : string := String.concat sep l.

(** [x in l] for a sequence of strings. *)
Definition mem (x : string) (l : list string) : bool := existsb (String.eqb x) l.

(** [sorted(set(l))]: duplicates dropped, ascending code-point order. *)
Fixpoint insert_sorted (x : string) (l : list string) : list string :=
  match l with
  | [] => [x]
  | y :: l' =>
      match String.compare x y with
      | Lt => x :: l
      | Eq => l
      | Gt => y :: insert_sorted x l'
      end
  end.

Definition sorted_set (l : list string) : list string :=
  fold_right insert_sorted [] l.

(** [bytes.decode()]: whether the bytes are well-formed UTF-8, as the
    strict decoder accepts them (no overlong form, no surrogate, nothing
    above U+10FFFF). *)
Definition continuation (b : nat) : bool := (128 <=? b) && (b <=? 191).

Definition second_of_three (b0 b1 : nat) : bool :=
  if b0 =? 224 then (160 <=? b1) && (b1 <=? 191)
  else if b0 =? 237 then (128 <=? b1) && (b1 <=? 159)
  else continuation b1.

Definition second_of_four (b0 b1 : nat) : bool :=
  if b0 =? 240 then (144 <=? b1) && (b1 <=? 191)
  else if b0 =? 244 then (128 <=? b1) && (b1 <=? 143)
  else continuation b1.

Fixpoint utf8_bytes (l : list nat) : bool :=
  match l with
  | [] => true
  | b0 :: r0 =>
      if b0 <=? 127 then utf8_bytes r0
      else if (194 <=? b0) && (b0 <=? 223) then
        match r0 with
        | b1 :: r1 => continuation b1 && utf8_bytes r1
        | _ => false
        end
      else if (224 <=? b0) && (b0 <=? 239) then
        match r0 with
        | b1 :: b2 :: r2 =>
            second_of_three b0 b1 && continuation b2 && utf8_bytes r2
        | _ => false
        end
      else if (240 <=? b0) && (b0 <=? 244) then
        match r0 with
        | b1 :: b2 :: b3 :: r3 =>
            second_of_four b0 b1 && continuation b2 && continuation b3
            && utf8_bytes r3
        | _ => false
        end
      else false
  end.

Definition utf8_valid (s : string) : bool :=
  utf8_bytes (map nat_of_ascii (list_ascii_of_string s)).

(** [bytes.decode("latin-1")] read back as UTF-8: a byte below 128 stays,
    a higher one becomes the two bytes of its code point. *)
Fixpoint utf8_of_latin1 (s : string) : string :=
  match s with
  | EmptyString => EmptyString
  | String c s' =>
      let n := nat_of_ascii c in
      if n <? 128 then String c (utf8_of_latin1 s')
      else String (ascii_of_nat (192 + n / 64))
             (String (ascii_of_nat (128 + n mod 64)) (utf8_of_latin1 s'))
  end.

(** [urllib.parse.quote(s, safe=safe)] on the UTF-8 bytes of [s]: letters,
    digits, [_.-~] and the bytes of [safe] stay, every other byte becomes
    [%XX] in upper-case hexadecimal. *)
Definition always_safe (c : ascii) : bool :=
  let n := nat_of_ascii c in
  ((65 <=? n) && (n <=? 90)) || ((97 <=? n) && (n <=? 122))
  || ((48 <=? n) && (n <=? 57))
  || (n =? 95) || (n =? 46) || (n =? 45) || (n =? 126).

Definition hex_digit (n : nat) : ascii :=
  nth n (list_ascii_of_string "0123456789ABCDEF") "0"%char.

Definition percent_encoded (c : ascii) : string :=
  let n := nat_of_ascii c in
  String "%"%char
    (String (hex_digit (n / 16)) (String (hex_digit (n mod 16)) EmptyString)).

Fixpoint quote (safe : string) (s : string) : string :=
  match s with
  | EmptyString => EmptyString
  | String c s' =>
      if always_safe c || existsb (Ascii.eqb c) (list_ascii_of_string safe)
      then String c (quote safe s')
      else String.append (percent_encoded c) (quote safe s')
  end.

(** [str(n)] for a port number. *)
Definition decimal (n : N) : string := NilEmpty.string_of_uint (N.to_uint n).

End Text.

(** ** HTTP messages *)

Module Http.

(** JSON values, as far as the program produces them: strings and objects
    whose fields keep their insertion order (a Python [dict]). *)
#[warnings="-register-all"]
Inductive json : Type :=
| JString (s : string)
| JObject (fields : list (string * json)).

(** Pages and schemas the framework generates for its documentation routes;
    their text is not modelled. *)
Inductive document : Type :=
| OpenAPISchema
| SwaggerUIPage
| SwaggerUIOAuth2RedirectPage
| ReDocPage.

Inductive body : Type :=
| BEmpty
| BJson (j : json)
| BText (s : string)
| BDocument (d : document).

Definition headers := list (string * string).

(** The [scheme] of an HTTP scope. *)
Inductive url_scheme : Type := scheme_http | scheme_https.

(** An HTTP request as the ASGI server hands it to the application: the
    method in upper case, the decoded path (a [str], held as its UTF-8
    bytes), the raw bytes of the query string, the header list with
    lower-cased names (ASGI mandates it), the body, and the scheme and
    server address of the connection. *)
Record request : Type := mkRequest {
  method : string;
  path : string;
  query_string : string;
  req_headers : headers;
  req_body : string;
  scheme : url_scheme;
  server : option (string * N)
}.

(** A response: status, the headers set by application code and middleware
    (lower-cased names, in order), and the body.  Left out are the entity
    headers [content-length] and [content-type], which the response classes
    derive from the body alone. *)
Record response : Type := mkResponse {
  status : nat;
  resp_headers : headers;
  resp_body : body
}.

(** [Headers.get(key)]: the value of the first header named [key]. *)
Fixpoint get_header (key : string) (hs : headers) : option string :=
  match hs with
  | [] => None
  | (k, v) :: hs' => if String.eqb k key then Some v else get_header key hs'
  end.

(** [key in headers] *)
Definition contains (key : string) (hs : headers) : bool :=
  match get_header key hs with Some _ => true | None => false end.

(** [d[key] = value] on a [dict]: the value is replaced in place when the key
    exists, and the pair is appended otherwise. *)
Fixpoint dict_set (key value : string) (d : headers) : headers :=
  match d with
  | [] => [(key, value)]
  | (k, v) :: d' =>
      if String.eqb k key then (k, value) :: d' else (k, v) :: dict_set key value d'
  end.

(** [MutableHeaders.__setitem__]: the first header of that name takes the
    value, later duplicates are deleted; without one the header is appended. *)
Definition drop_named (key : string) (hs : headers) : headers :=
  filter (fun kv => negb (String.eqb (fst kv) key)) hs.

Fixpoint set_header (key value : string) (hs : headers) : headers :=
  match hs with
  | [] => [(key, value)]
  | (k, v) :: hs' =>
      if String.eqb k key then (key, value) :: drop_named key hs'
      else (k, v) :: set_header key value hs'
  end.

(** [MutableHeaders.update(d)] *)
Definition update (d : headers) (hs : headers) : headers :=
  fold_left (fun acc kv => set_header (Text.lower (fst kv)) (snd kv) acc) d hs.

(** [MutableHeaders.add_vary_header(vary)] *)
Definition add_vary_header (vary : string) (hs : headers) : headers :=
  match get_header "vary" hs with
  | Some existing => set_header "vary" (Text.join ", " [existing; vary]) hs
  | None => set_header "vary" vary hs
  end.

(** Response classes. [init_headers] lower-cases the names it is given. *)
Definition lower_names (d : headers) : headers :=
  map (fun kv => (Text.lower (fst kv), snd kv)) d.

Definition PlainTextResponse (content : string) (status_code : nat) (hs : headers)
  : response :=
  mkResponse status_code (lower_names hs) (BText content).

Definition JSONResponse (content : json) (status_code : nat) (hs : headers)
  : response :=
  mkResponse status_code (lower_names hs) (BJson content).

(** [HTMLResponse] or [JSONResponse] of a generated document: status 200. *)
Definition DocumentResponse (d : document) : response :=
  mkResponse 200 [] (BDocument d).

(** [RedirectResponse(url)]: status 307, an empty body, and the quoted URL
    as [location]. *)
Definition RedirectResponse (url : string) : response :=
  mkResponse 307
    (set_header "location" (Text.quote ":/%#?=@[]!$&'()*+,;" url) []) BEmpty.

(** [Response(status_code=..., headers=...)] without content. *)
Definition EmptyResponse (status_code : nat) (hs : headers) : response :=
  mkResponse status_code (lower_names hs) BEmpty.

Definition is_2xx (n : nat) : bool := (200 <=? n) && (n <? 300).

End Http.

(** ** Starlette: CORS middleware, routing, exception handling *)

Module Starlette.
Import Http.

(** *** [starlette.middleware.cors] (as in starlette 0.46.2) *)

Definition ALL_METHODS : list string :=
  ["DELETE"; "GET"; "HEAD"; "OPTIONS"; "PATCH"; "POST"; "PUT"].

Definition SAFELISTED_HEADERS : list string :=
  ["Accept"; "Accept-Language"; "Content-Language"; "Content-Type"].

(** Keyword arguments of [CORSMiddleware].  The three the program never
    passes stay at their defaults: [allow_origin_regex=None],
    [expose_headers=()] and [max_age=600]. *)
Record cors_options : Type := mkCorsOptions {
  allow_origins : list string;
  allow_credentials : bool;
  allow_methods : list string;
  allow_headers : list string
}.

(** Instance attributes set by [CORSMiddleware.__init__]. *)
Record CORSMiddleware : Type := mkCORS {
  self_allow_origins : list string;
  self_allow_methods : list string;
  self_allow_headers : list string;
  allow_all_origins : bool;
  allow_all_headers : bool;
  preflight_explicit_allow_origin : bool;
  simple_headers : headers;
  preflight_headers : headers
}.

Definition CORSMiddleware_init (o : cors_options) : CORSMiddleware :=
  let methods :=
    if Text.mem "*" (allow_methods o) then ALL_METHODS else allow_methods o in
  let all_origins := Text.mem "*" (allow_origins o) in
  let all_headers := Text.mem "*" (allow_headers o) in
  let explicit := negb all_origins || allow_credentials o in
  let simple :=
    (if all_origins then [("Access-Control-Allow-Origin", "*")] else [])
    ++ (if allow_credentials o
        then [("Access-Control-Allow-Credentials", "true")] else []) in
  let sorted_headers := Text.sorted_set (SAFELISTED_HEADERS ++ allow_headers o) in
  let preflight :=
    (if explicit then [("Vary", "Origin")]
     else [("Access-Control-Allow-Origin", "*")])
    ++ [("Access-Control-Allow-Methods", Text.join ", " methods);
        ("Access-Control-Max-Age", "600")]
    ++ (if negb (length sorted_headers =? 0) && negb all_headers
        then [("Access-Control-Allow-Headers", Text.join ", " sorted_headers)]
        else [])
    ++ (if allow_credentials o
        then [("Access-Control-Allow-Credentials", "true")] else []) in
  {| self_allow_origins := allow_origins o;
     self_allow_methods := methods;
     self_allow_headers := map Text.lower sorted_headers;
     allow_all_origins := all_origins;
     allow_all_headers := all_headers;
     preflight_explicit_allow_origin := explicit;
     simple_headers := simple;
     preflight_headers := preflight |}.

(** [CORSMiddleware.is_allowed_origin] (no origin regex is configured). *)
Definition is_allowed_origin (self : CORSMiddleware) (origin : string) : bool :=
  if allow_all_origins self then true
  else Text.mem origin (self_allow_origins self).

(** The loop of [preflight_response] over the requested header names. *)
Definition headers_disallowed (self : CORSMiddleware) (requested : string) : bool :=
  existsb (fun h => negb (Text.mem (Text.strip h) (self_allow_headers self)))
          (map Text.lower (Text.split_comma requested)).

(** [CORSMiddleware.preflight_response].  [requested_origin] and
    [requested_method] are the headers [origin] and
    [access-control-request-method], which [__call__] has found present. *)
Definition preflight_response (self : CORSMiddleware)
    (requested_origin requested_method : string)
    (requested_headers : option string) : response :=
  let allowed := is_allowed_origin self requested_origin in
  let hs0 := preflight_headers self in
  let hs1 :=
    if allowed && preflight_explicit_allow_origin self
    then dict_set "Access-Control-Allow-Origin" requested_origin hs0 else hs0 in
  let f_origin := if allowed then [] else ["origin"] in
  let f_method :=
    if Text.mem requested_method (self_allow_methods self) then [] else ["method"] in
  let hs2 :=
    match requested_headers with
    | Some rh =>
        if allow_all_headers self
        then dict_set "Access-Control-Allow-Headers" rh hs1 else hs1
    | None => hs1
    end in
  let f_headers :=
    match requested_headers with
    | Some rh =>
        if allow_all_headers self then []
        else if headers_disallowed self rh then ["headers"] else []
    | None => []
    end in
  let failures := f_origin ++ f_method ++ f_headers in
  match failures with
  | [] => PlainTextResponse "OK" 200 hs2
  | _ =>
      PlainTextResponse
        (String.append "Disallowed CORS " (Text.join ", " failures)) 400 hs2
  end.

(** [CORSMiddleware.allow_explicit_origin] *)
Definition allow_explicit_origin (hs : headers) (origin : string) : headers :=
  add_vary_header "Origin" (set_header "access-control-allow-origin" origin hs).

(** [CORSMiddleware.send] on the [http.response.start] message: the headers
    of the wrapped application's response are extended in place. *)
Definition cors_send (self : CORSMiddleware) (request_headers : headers)
    (origin : string) (r : response) : response :=
  let hs := update (simple_headers self) (resp_headers r) in
  let has_cookie := contains "cookie" request_headers in
  let hs' :=
    if allow_all_origins self && has_cookie then allow_explicit_origin hs origin
    else if negb (allow_all_origins self) && is_allowed_origin self origin
         then allow_explicit_origin hs origin
         else hs in
  mkResponse (status r) hs' (resp_body r).

(** *** [starlette.datastructures.URL] *)

(** [URL(scope=...)] for the path [p]: the address comes from the [host]
    header when there is one, else from the server address (the default port
    of the scheme is left out), else the URL is the bare path; a non-empty
    query string is decoded as UTF-8 and appended.  [None] stands for the
    [UnicodeDecodeError] of that decoding. *)
Definition scheme_name (sch : url_scheme) : string :=
  match sch with scheme_http => "http" | scheme_https => "https" end.

Definition default_port (sch : url_scheme) : N :=
  match sch with scheme_http => 80%N | scheme_https => 443%N end.

Definition URL (req : request) (p : string) : option string :=
  let url :=
    match get_header "host" (req_headers req) with
    | Some host_header =>
        String.append (scheme_name (scheme req))
          (String.append "://"
             (String.append (Text.utf8_of_latin1 host_header) p))
    | None =>
        match server req with
        | None => p
        | Some (host, port) =>
            String.append (scheme_name (scheme req))
              (String.append "://"
                 (String.append host
                    (String.append
                       (if N.eqb port (default_port (scheme req))
                        then EmptyString
                        else String.append ":" (Text.decimal port))
                       p)))
        end
    end in
  if String.eqb (query_string req) EmptyString then Some url
  else if Text.utf8_valid (query_string req)
       then Some (String.append url (String.append "?" (query_string req)))
       else None.

(** *** Applications, exceptions, [starlette.routing] *)

(** [raise HTTPException(status_code, detail, headers)] *)
Record HTTPException : Type := mkHTTPException {
  exc_status_code : nat;
  exc_detail : string;
  exc_headers : headers
}.

(** What an application can raise: an [HTTPException], or an error no
    handler is registered for. *)
Inductive raised : Type :=
| HTTP (e : HTTPException)
| UnicodeDecodeError.

(** What an application yields: a response, or an exception on its way up
    the middleware stack. *)
Inductive outcome : Type :=
| Returned (r : response)
| Raised (x : raised).

Section Apps.
Context {Store : Type}.

(** An ASGI application on HTTP scopes, with the state it may use. *)
Definition asgi_app : Type := request -> Store -> outcome * Store.

(** [CORSMiddleware.__call__] around the wrapped application [app]; what
    the wrapped application raises passes through. *)
Definition cors_call (self : CORSMiddleware) (app : asgi_app) : asgi_app :=
  fun req s =>
    let hs := req_headers req in
    match get_header "origin" hs with
    | None => app req s
    | Some origin =>
        match (if String.eqb (method req) "OPTIONS"
               then get_header "access-control-request-method" hs else None) with
        | Some requested_method =>
            (Returned
               (preflight_response self origin requested_method
                  (get_header "access-control-request-headers" hs)), s)
        | None =>
            match app req s with
            | (Returned r, s') => (Returned (cors_send self hs origin r), s')
            | (Raised x, s') => (Raised x, s')
            end
        end
    end.

Inductive Match : Type := NONE | PARTIAL | FULL.

(** A route on a path without parameters, with the methods it accepts
    ([None]: any), in the order its method set iterates, and its endpoint. *)
Record Route : Type := mkRoute {
  route_path : string;
  route_methods : option (list string);
  route_app : asgi_app
}.

(** [Route.__init__] for a function endpoint: [methods] defaults to [GET],
    and a route that accepts [GET] accepts [HEAD] too.  The methods are a
    [set]: which of the two comes first when it is iterated depends on the
    interpreter's hash seed, hence [head_first]. *)
Definition Route_init (head_first : bool) (p : string) (endpoint : asgi_app)
  : Route :=
  mkRoute p (Some (if head_first then ["HEAD"; "GET"] else ["GET"; "HEAD"]))
          endpoint.

(** [compile_path(p)] for a path [p] without parameters is the regular
    expression [^p$], and [path_regex.match] accepts [p] itself and, since
    [$] also matches before a final newline, [p] followed by one newline. *)
Definition newline : string := String (ascii_of_nat 10) EmptyString.

Definition path_regex_match (pattern p : string) : bool :=
  String.eqb p pattern || String.eqb p (String.append pattern newline).

(** [self.methods and scope["method"] not in self.methods] *)
Definition method_rejected (rt : Route) (m : string) : bool :=
  match route_methods rt with
  | Some ms => negb (length ms =? 0) && negb (Text.mem m ms)
  | None => false
  end.

(** [Route.matches] *)
Definition matches (rt : Route) (m p : string) : Match :=
  if path_regex_match (route_path rt) p
  then if method_rejected rt m then PARTIAL else FULL
  else NONE.

(** [Route.handle], inside a Starlette application. *)
Definition handle (rt : Route) : asgi_app :=
  fun req s =>
    if method_rejected rt (method req)
    then (Raised (HTTP (mkHTTPException 405 "Method Not Allowed"
                          [("Allow", Text.join ", "
                                       (match route_methods rt with
                                        | Some ms => ms | None => [] end))])),
          s)
    else route_app rt req s.

(** The first loop of [Router.app]: the first full match wins, the first
    partial match is kept for the case that there is no full one. *)
Fixpoint find_route (routes : list Route) (m p : string) (partial : option Route)
  : option Route :=
  match routes with
  | [] => partial
  | rt :: rest =>
      match matches rt m p with
      | FULL => Some rt
      | PARTIAL =>
          find_route rest m p (match partial with Some _ => partial | None => Some rt end)
      | NONE => find_route rest m p partial
      end
  end.

(** The path [Router.app] tries when nothing matched and [redirect_slashes]
    is on: trailing slashes stripped, or one slash added. *)
Definition redirect_path (p : string) : string :=
  if Text.ends_with_slash p then Text.rstrip_slash p else String.append p "/".

(** [Router.not_found], inside a Starlette application. *)
Definition not_found : asgi_app :=
  fun _ s => (Raised (HTTP (mkHTTPException 404 "Not Found" [])), s).

(** [Router.app] on an HTTP scope, with an empty [root_path].  The redirect
    builds [URL(scope=redirect_scope)], whose decoding of the query string
    can raise. *)
Definition Router_app (routes : list Route) (redirect_slashes : bool) : asgi_app :=
  fun req s =>
    match find_route routes (method req) (path req) None with
    | Some rt => handle rt req s
    | None =>
        if redirect_slashes && negb (String.eqb (path req) "/")
           && existsb (fun rt =>
                 match matches rt (method req) (redirect_path (path req)) with
                 | NONE => false | _ => true end) routes
        then match URL req (redirect_path (path req)) with
             | Some url => (Returned (RedirectResponse url), s)
             | None => (Raised UnicodeDecodeError, s)
             end
        else not_found req s
    end.

(** [ExceptionMiddleware] with a handler registered for [HTTPException];
    any other exception goes on. *)
Definition ExceptionMiddleware (handler : HTTPException -> response)
    (app : asgi_app) : asgi_app :=
  fun req s =>
    match app req s with
    | (Raised (HTTP e), s') => (Returned (handler e), s')
    | other => other
    end.

(** [ServerErrorMiddleware], outermost, without debug mode and without a
    handler of its own: an exception that arrives before the response has
    started is answered with a bare 500 (and raised again for the server to
    log). *)
Definition error_response : response :=
  PlainTextResponse "Internal Server Error" 500 [].

Definition ServerErrorMiddleware (app : asgi_app)
  : request -> Store -> response * Store :=
  fun req s =>
    match app req s with
    | (Returned r, s') => (r, s')
    | (Raised _, s') => (error_response, s')
    end.

End Apps.

Arguments asgi_app : clear implicits.
Arguments Route : clear implicits.

End Starlette.

(** ** FastAPI: the application object *)

Module FastAPI.
Import Http Starlette.

(** [fastapi.utils.is_body_allowed_for_status_code] on an integer status. *)
Definition is_body_allowed_for_status_code (c : nat) : bool :=
  negb ((c <? 200) || (c =? 204) || (c =? 205) || (c =? 304)).

(** [fastapi.exception_handlers.http_exception_handler] *)
Definition http_exception_handler (exc : HTTPException) : response :=
  if is_body_allowed_for_status_code (exc_status_code exc)
  then JSONResponse (JObject [("detail", JString (exc_detail exc))])
         (exc_status_code exc) (exc_headers exc)
  else EmptyResponse (exc_status_code exc) (exc_headers exc).

(** [Middleware(CORSMiddleware, **options)], the one middleware class the
    program uses. *)
Inductive Middleware : Type :=
| Middleware_CORS (options : cors_options).

Section App.
Context {Globals : Type}.

(** The state requests are handled in: whether [app.openapi_schema] holds
    the generated schema yet (it is empty until the schema is first asked
    for), and the globals a handler can reach. *)
Record state : Type := mkState {
  openapi_schema : bool;
  globals : Globals
}.

(** A path operation function without parameters: FastAPI extracts nothing
    from the request for it, awaits it, and serialises what it returns. *)
Definition path_operation : Type := Globals -> json * Globals.

(** The application object, as far as the program touches it. *)
Record FastAPI : Type := mkFastAPI {
  user_middleware : list Middleware;
  routes : list (Route state)
}.

(** [app.openapi()]: the schema is generated and stored on first use, and
    the stored one is returned from then on. *)
Definition openapi (s : state) : document * state :=
  if openapi_schema s then (OpenAPISchema, s)
  else (OpenAPISchema, {| openapi_schema := true; globals := globals s |}).

(** The endpoint of [/openapi.json]. *)
Definition openapi_endpoint : asgi_app state :=
  fun _ s => let (d, s') := openapi s in (Returned (DocumentResponse d), s').

(** An endpoint of the other documentation routes: a generated page. *)
Definition document_endpoint (d : document) : asgi_app state :=
  fun _ s => (Returned (DocumentResponse d), s).

(** [FastAPI()] with every argument at its default; [__init__] ends in
    [setup()], which registers the schema and documentation routes
    ([openapi_url="/openapi.json"], [docs_url="/docs"],
    [swagger_ui_oauth2_redirect_url="/docs/oauth2-redirect"],
    [redoc_url="/redoc"]) through [add_route]. *)
Definition FastAPI_init (head_first : bool) : FastAPI :=
  {| user_middleware := [];
     routes :=
       [ Route_init head_first "/openapi.json" openapi_endpoint;
         Route_init head_first "/docs" (document_endpoint SwaggerUIPage);
         Route_init head_first "/docs/oauth2-redirect"
                    (document_endpoint SwaggerUIOAuth2RedirectPage);
         Route_init head_first "/redoc" (document_endpoint ReDocPage) ] |}.

(** [app.add_middleware(cls, **options)]: inserted at the front. *)
Definition add_middleware (app : FastAPI) (m : Middleware) : FastAPI :=
  {| user_middleware := m :: user_middleware app; routes := routes app |}.

(** [get_request_handler] for a path operation without parameters, body,
    [status_code] or [response_class]: a [JSONResponse] with status 200. *)
Definition get_request_handler (f : path_operation) : asgi_app state :=
  fun _ s =>
    let (content, g') := f (globals s) in
    (Returned (JSONResponse content 200 []),
     {| openapi_schema := openapi_schema s; globals := g' |}).

(** [APIRoute]: unlike [Route], it accepts exactly the methods given. *)
Definition APIRoute (p : string) (endpoint : path_operation) (methods : list string)
  : Route state :=
  mkRoute p (Some methods) (get_request_handler endpoint).

(** [@app.get(p)] applied to [endpoint]: the route is appended. *)
Definition get (app : FastAPI) (p : string) (endpoint : path_operation) : FastAPI :=
  {| user_middleware := user_middleware app;
     routes := routes app ++ [APIRoute p endpoint ["GET"]] |}.

Definition wrap (m : Middleware) (inner : asgi_app state) : asgi_app state :=
  match m with
  | Middleware_CORS o => cors_call (CORSMiddleware_init o) inner
  end.

(** [build_middleware_stack]: the server-error middleware outermost, then
    the user middleware, first entry first, then the exception middleware
    around the router (default [redirect_slashes=True]). *)
Definition build_middleware_stack (app : FastAPI)
  : request -> state -> response * state :=
  ServerErrorMiddleware
    (fold_right wrap
       (ExceptionMiddleware http_exception_handler
          (Router_app (routes app) true))
       (user_middleware app)).

(** [app(scope, receive, send)] on an HTTP scope: the request goes to the
    middleware stack (which the application builds when the first request
    arrives, and keeps). *)
Definition call (app : FastAPI) : request -> state -> response * state :=
  build_middleware_stack app.

End App.

Arguments FastAPI : clear implicits.
Arguments state : clear implicits.
Arguments path_operation : clear implicits.

End FastAPI.

(** ** The process: standard output, the listening socket, the requests *)

Module Process.
Import Http Starlette.

Inductive signal : Type := SIGINT | SIGTERM.

(** The two ways uvicorn releases end a failed start: [sys.exit(1)] from
    within the start-up, or a return to [run], which exits with
    [STARTUP_FAILURE], 3. *)
Inductive uvicorn_release : Type :=
| exits_in_startup
| reports_startup_failure.

Definition bind_failure_status (r : uvicorn_release) : nat :=
  match r with exits_in_startup => 1 | reports_startup_failure => 3 end.

(** What the interpreter and the installed releases fix for a run: the
    iteration order of the method set [{"GET", "HEAD"}] (it follows the hash
    seed), Python's [int] on a string ([None] when it raises [ValueError]),
    and the uvicorn release. *)
Record platform : Type := mkPlatform {
  head_first : bool;
  python_int : string -> option Z;
  uvicorn : uvicorn_release
}.

(** What the process finds around it when it starts. *)
Record world : Type := mkWorld {
  argv : list string;
  environ : list (string * string);
  files : list (string * string);
  (** whether the encoding of standard output can encode this line *)
  can_encode : string -> bool;
  (** whether [bind] on this host and port succeeds: the port is free and
      the process is allowed to take it *)
  can_bind : string -> N -> bool;
  (** the requests that arrive while the server is up *)
  incoming : list request;
  (** the signal that stops the server *)
  stop : signal
}.

(** [os.environ.get(name)] *)
Fixpoint getenv (name : string) (env : list (string * string)) : option string :=
  match env with
  | [] => None
  | (k, v) :: env' => if String.eqb k name then Some v else getenv name env'
  end.

(** What the process does, in order.  [Printed] is a line the program
    prints, [AccessLogged] a line of uvicorn's access log; both go to
    standard output. *)
Inductive event : Type :=
| Printed (line : string)
| Listening (host : string) (port : N)
| BindFailed (host : string) (port : N)
| AccessLogged (req : request) (status_code : nat)
| Served (req : request) (resp : response).

Inductive exception : Type :=
| SystemExit (code : nat)
| UnicodeEncodeError
| ValueError.

(** How a statement ends: normally, with an exception, or with the process
    killed by a signal. *)
Inductive result (A : Type) : Type :=
| Done (a : A)
| Exc (e : exception)
| Killed (sig : signal).
Arguments Done {A} a.
Arguments Exc {A} e.
Arguments Killed {A} sig.

Section Proc.
Context {Store : Type}.

Record process : Type := mkProcess {
  trace : list event;
  store : Store
}.

(** Statements: they see the world, extend the trace, may change the store,
    and finish or raise. *)
Definition Proc (A : Type) : Type := world -> process -> result A * process.

Definition ret {A} (a : A) : Proc A := fun _ p => (Done a, p).

Definition bind {A B} (m : Proc A) (k : A -> Proc B) : Proc B :=
  fun w p =>
    match m w p with
    | (Done a, p') => k a w p'
    | (Exc e, p') => (Exc e, p')
    | (Killed sig, p') => (Killed sig, p')
    end.

Definition log (e : event) (p : process) : process :=
  {| trace := trace p ++ [e]; store := store p |}.

(** [print(line)]: the line is encoded for standard output first; when the
    encoding cannot take it, [UnicodeEncodeError] is raised and nothing is
    written. *)
Definition print (line : string) : Proc unit :=
  fun w p =>
    if can_encode w line then (Done tt, log (Printed line) p)
    else (Exc UnicodeEncodeError, p).

(** The server loop on the requests that arrive: each is handed to the
    application, logged in the access log when its response starts, and
    answered. *)
Fixpoint serve (app : request -> Store -> response * Store)
    (reqs : list request) (p : process) : process :=
  match reqs with
  | [] => p
  | req :: rest =>
      let (resp, s') := app req (store p) in
      serve app rest
        {| trace := trace p ++ [AccessLogged req (status resp); Served req resp];
           store := s' |}
  end.

(** The number of workers [uvicorn.run] settles on when the caller passes
    none: [int(os.environ["WEB_CONCURRENCY"])] when the variable is set,
    1 otherwise. *)
Definition workers (pf : platform) (w : world) : option Z :=
  match getenv "WEB_CONCURRENCY" (environ w) with
  | Some v => python_int pf v
  | None => Some 1%Z
  end.

(** [uvicorn.run(app, host=..., port=...)] with an application object and
    every other option at its default.  More than one worker needs an import
    string: the call exits with status 1 before any bind.  Otherwise the
    server binds once; when the bind fails the process exits with a status
    that depends on the release; when it succeeds the server serves until a
    signal stops it, and hands the signal back to the process: [SIGINT]
    lets [run] return, [SIGTERM] ends the process. *)
Definition uvicorn_run (pf : platform)
    (app : request -> Store -> response * Store)
    (host : string) (port : N) : Proc unit :=
  fun w p =>
    match workers pf w with
    | None => (Exc ValueError, p)
    | Some n =>
        if (1 <? n)%Z then (Exc (SystemExit 1), p)
        else if can_bind w host port
        then let p' := serve app (incoming w) (log (Listening host port) p) in
             (match stop w with
              | SIGINT => Done tt
              | SIGTERM => Killed SIGTERM
              end, p')
        else (Exc (SystemExit (bind_failure_status (uvicorn pf))),
              log (BindFailed host port) p)
    end.

(** The exit status of the interpreter for a script's outcome. *)
Definition exit_status {A} (r : result A) : nat :=
  match r with
  | Done _ => 0
  | Exc (SystemExit code) => code
  | Exc _ => 1
  | Killed SIGINT => 130
  | Killed SIGTERM => 143
  end.

End Proc.

Arguments process : clear implicits.
Arguments Proc : clear implicits.

Declare Scope proc_scope.
Delimit Scope proc_scope with proc.
Notation "m ;; k" := (bind m (fun _ => k))
  (at level 61, right associativity) : proc_scope.

End Process.

(** ** The program: [backend-python/main.py] *)

Module Main.
Import Http Starlette FastAPI Process.

(** The body the health route returns. *)
Definition health_body : json :=
  JObject [("status", JString "ok"); ("service", JString "python-backend")].

(** The keyword arguments of [app.add_middleware(CORSMiddleware, ...)]. *)
Definition cors : cors_options :=
  {| allow_origins := ["*"];
     allow_credentials := true;
     allow_methods := ["*"];
     allow_headers := ["*"] |}.

Definition banner1 : string := "🚀 Starting Python Backend...".
Definition banner2 : string := "✅ Server running on http://localhost:8000".

Section Program.
Context {Globals : Type}.
Variable pf : platform.

(** [async def health(): return {"status": "ok", "service": "python-backend"}] *)
Definition health : path_operation Globals :=
  fun g => (health_body, g).

(** [app = FastAPI()], [app.add_middleware(...)], [@app.get("/health")]. *)
Definition app : FastAPI.FastAPI Globals :=
  let app := FastAPI_init (head_first pf) in
  let app := add_middleware app (Middleware_CORS cors) in
  get app "/health" health.

(** The module's statements, with [name] the value of [__name__]; the
    result is the [app] the module namespace ends up with.  The guarded block
    imports uvicorn, prints twice and runs the server; nothing encloses the
    call in a [try] or a loop. *)
Definition main (name : string)
  : Proc (state Globals) (FastAPI.FastAPI Globals) :=
  if String.eqb name "__main__"
  then (print banner1 ;;
        print banner2 ;;
        uvicorn_run pf (call app) "0.0.0.0" 8000%N ;;
        ret app)%proc
  else ret app.

(** The response of the running service to one request. *)
Definition respond (req : request) (s : state Globals)
  : response * state Globals :=
  call app req s.

End Program.

End Main.

(** ** The service as a function, and what is observed of a run *)

Module Service.
Import Http Starlette FastAPI Process Main.

(** The router inside the exception middleware: what the CORS layer wraps. *)
Definition inner {Globals : Type} (pf : platform) : asgi_app (state Globals) :=
  ExceptionMiddleware http_exception_handler (Router_app (routes (app pf)) true).

(** What it yields, computed from a state of no consequence. *)
Definition route_outcome (pf : platform) (req : request) : outcome :=
  fst (@inner unit pf req (mkState false tt)).

(** The middleware instance the stack builds from the program's options. *)
Definition policy : CORSMiddleware := CORSMiddleware_init cors.

(** A CORS preflight, as [CORSMiddleware.__call__] recognises it. *)
Definition is_preflight (req : request) : bool :=
  contains "origin" (req_headers req)
  && String.eqb (method req) "OPTIONS"
  && contains "access-control-request-method" (req_headers req).

(** The response of the whole stack, computed without a state. *)
Definition service_response (pf : platform) (req : request) : response :=
  let hs := req_headers req in
  match get_header "origin" hs with
  | None =>
      match route_outcome pf req with
      | Returned r => r
      | Raised _ => error_response
      end
  | Some origin =>
      match (if String.eqb (method req) "OPTIONS"
             then get_header "access-control-request-method" hs else None) with
      | Some requested_method =>
          preflight_response policy origin requested_method
            (get_header "access-control-request-headers" hs)
      | None =>
          match route_outcome pf req with
          | Returned r => cors_send policy hs origin r
          | Raised _ => error_response
          end
      end
  end.

(** The one request that writes state: a [GET] or [HEAD] that reaches the
    schema endpoint stores the schema in the application. *)
Definition schema_request (req : request) : bool :=
  path_regex_match "/openapi.json" (path req)
  && Text.mem (method req) ["GET"; "HEAD"].

Definition reaches_schema (req : request) : bool :=
  negb (is_preflight req) && schema_request req.

Definition store_schema {Globals : Type} (s : state Globals) : state Globals :=
  {| openapi_schema := true; globals := globals s |}.

(** The state the router leaves, and the state the whole stack leaves. *)
Definition route_after {Globals : Type} (req : request) (s : state Globals)
  : state Globals :=
  if schema_request req then store_schema s else s.

Definition after {Globals : Type} (req : request) (s : state Globals)
  : state Globals :=
  if reaches_schema req then store_schema s else s.

(** The documentation routes [FastAPI()] registers, with their documents. *)
Definition documentation : list (string * document) :=
  [ ("/openapi.json", OpenAPISchema);
    ("/docs", SwaggerUIPage);
    ("/docs/oauth2-redirect", SwaggerUIOAuth2RedirectPage);
    ("/redoc", ReDocPage) ].

(** Whether the path expression of a documentation route accepts [p]. *)
Definition documented (p : string) : bool :=
  existsb (fun pattern => path_regex_match pattern p) (map fst documentation).

(** Whether some route's path expression accepts [p]. *)
Definition registered (p : string) : bool :=
  existsb (fun pattern => path_regex_match pattern p)
          (map fst documentation ++ ["/health"]).

Definition method_not_allowed (allow : string) : response :=
  http_exception_handler
    (mkHTTPException 405 "Method Not Allowed" [("Allow", allow)]).

Definition not_found_response : response :=
  http_exception_handler (mkHTTPException 404 "Not Found" []).

(** The [Allow] value of a documentation route. *)
Definition documentation_allow (pf : platform) : string :=
  if head_first pf then "HEAD, GET" else "GET, HEAD".

(** The routing table of the program, as a relation between a request and
    what the router, under the exception middleware, yields. *)
Inductive routed (pf : platform) (req : request) : outcome -> Prop :=
| routed_health :
    path_regex_match "/health" (path req) = true ->
    Text.mem (method req) ["GET"] = true ->
    routed pf req (Returned (JSONResponse health_body 200 []))
| routed_health_405 :
    path_regex_match "/health" (path req) = true ->
    Text.mem (method req) ["GET"] = false ->
    routed pf req (Returned (method_not_allowed "GET"))
| routed_document pattern d :
    In (pattern, d) documentation ->
    path_regex_match pattern (path req) = true ->
    Text.mem (method req) ["GET"; "HEAD"] = true ->
    routed pf req (Returned (DocumentResponse d))
| routed_document_405 pattern d :
    In (pattern, d) documentation ->
    path_regex_match pattern (path req) = true ->
    Text.mem (method req) ["GET"; "HEAD"] = false ->
    routed pf req (Returned (method_not_allowed (documentation_allow pf)))
| routed_redirect url :
    registered (path req) = false ->
    registered (redirect_path (path req)) = true ->
    URL req (redirect_path (path req)) = Some url ->
    routed pf req (Returned (RedirectResponse url))
| routed_decode_error :
    registered (path req) = false ->
    registered (redirect_path (path req)) = true ->
    URL req (redirect_path (path req)) = None ->
    routed pf req (Raised UnicodeDecodeError)
| routed_not_found :
    registered (path req) = false ->
    registered (redirect_path (path req)) = false \/ path req = "/" ->
    routed pf req (Returned not_found_response).

(** The router on an unregistered path: a redirect when the path with its
    slashes mended is registered, the decoding error of that redirect, or
    "not found". *)
Definition unregistered_outcome (req : request) : outcome :=
  if negb (String.eqb (path req) "/") && registered (redirect_path (path req))
  then match URL req (redirect_path (path req)) with
       | Some url => Returned (RedirectResponse url)
       | None => Raised UnicodeDecodeError
       end
  else Returned not_found_response.

(** The request the router would redirect for its slashes, but whose query
    string does not decode: the one request the stack answers with 500. *)
Definition redirect_fails (req : request) : bool :=
  negb (is_preflight req)
  && negb (registered (path req))
  && registered (redirect_path (path req))
  && negb (String.eqb (query_string req) EmptyString)
  && negb (Text.utf8_valid (query_string req)).

(** The value of the response's [Access-Control-Allow-Origin] header. *)
Definition allow_origin (r : response) : option string :=
  get_header "access-control-allow-origin" (resp_headers r).

(** The header is there, and its value lets [origin] in: the wildcard, or
    the origin itself. *)
Definition permits (r : response) (origin : option string) : Prop :=
  exists v, allow_origin r = Some v /\ (v = "*" \/ Some v = origin).

(** What a run printed itself, what reached standard output in all, where
    it tried to bind, where it listened, and what it served, read off the
    trace. *)
Definition printed (t : list event) : list string :=
  flat_map (fun e => match e with Printed line => [line] | _ => [] end) t.

Definition stdout (t : list event) : list event :=
  filter (fun e => match e with
                   | Printed _ | AccessLogged _ _ => true
                   | _ => false
                   end) t.

Definition bind_attempts (t : list event) : list (string * N) :=
  flat_map (fun e => match e with
                     | Listening h p | BindFailed h p => [(h, p)]
                     | _ => []
                     end) t.

Definition listening (t : list event) : list (string * N) :=
  flat_map (fun e => match e with Listening h p => [(h, p)] | _ => [] end) t.

Definition served (t : list event) : list (request * response) :=
  flat_map (fun e => match e with Served req r => [(req, r)] | _ => [] end) t.

(** What the server loop adds to the trace. *)
Definition exchanges (pf : platform) (reqs : list request) : list event :=
  flat_map (fun req =>
              [AccessLogged req (status (service_response pf req));
               Served req (service_response pf req)]) reqs.

(** What the script adds to the trace once both lines are printed. *)
Definition after_banners (pf : platform) (w : world) : list event :=
  match workers pf w with
  | None => []
  | Some n =>
      if (1 <? n)%Z then []
      else if can_bind w "0.0.0.0" 8000%N
           then Listening "0.0.0.0" 8000%N :: exchanges pf (incoming w)
           else [BindFailed "0.0.0.0" 8000%N]
  end.

(** A process that has done nothing yet. *)
Definition fresh {Store : Type} (s : Store) : process Store := mkProcess [] s.

End Service.

(** ** Platforms, requests and worlds used as examples *)

Module Samples.
Import Http Process.

(** [int] on a string of plain decimal digits, where Python's agrees. *)
Fixpoint digits_value (acc : Z) (s : string) : option Z :=
  match s with
  | EmptyString => Some acc
  | String c s' =>
      let n := nat_of_ascii c in
      if (48 <=? n) && (n <=? 57)
      then digits_value (10 * acc + Z.of_nat (n - 48))%Z s'
      else None
  end.

Definition plain_int (s : string) : option Z :=
  match s with
  | EmptyString => None
  | _ => digits_value 0%Z s
  end.

Definition older_platform : platform := mkPlatform false plain_int exits_in_startup.

Definition newer_platform : platform :=
  mkPlatform true plain_int reports_startup_failure.

(** A request over plain HTTP to a server on port 8000. *)
Definition http_request (m p q : string) (hs : headers) (b : string) : request :=
  mkRequest m p q hs b scheme_http (Some ("127.0.0.1", 8000%N)).

(** A state in which nothing has been asked of the application yet. *)
Definition initial : FastAPI.state unit := FastAPI.mkState false tt.

Definition get_health (hs : headers) : request :=
  http_request "GET" "/health" "" hs "".

Definition get_health_busy : request :=
  http_request "GET" "/health" "id=42&verbose=1"
    [("origin", "https://example.com"); ("cookie", "a=b");
     ("x-api-key", "secret")] "{}".


Definition preflight_request (p requested_method : string) : request :=
  http_request "OPTIONS" p ""
    [("origin", "https://example.com");
     ("access-control-request-method", requested_method)] "".


Definition get_docs : request := http_request "GET" "/docs" "" [] "".

(** [GET /health%0A]: the server hands over the decoded path. *)
Definition get_health_newline : request :=
  http_request "GET" (String.append "/health" Starlette.newline) "" [] "".

Definition get_unknown : request := http_request "GET" "/users" "" [] "".

Definition post_health : request :=
  http_request "POST" "/health" "" [("origin", "https://example.com")] "{}".

(** [GET /health/?%FF] with an origin: the query string is the one byte
    255, which is no UTF-8. *)
Definition get_health_slash_bad_query : request :=
  http_request "GET" "/health/" (String (ascii_of_nat 255) EmptyString)
    [("host", "localhost:8000"); ("origin", "https://example.com")] "".

Definition get_health_slash : request :=
  http_request "GET" "/health/" "a=1"
    [("host", "localhost:8000"); ("origin", "https://example.com")] "".

Definition quiet_world : world :=
  mkWorld [] [] [] (fun _ => true) (fun _ _ => true)
          [get_health []; post_health] SIGINT.

Definition configured_world : world :=
  mkWorld ["main.py"; "--host"; "127.0.0.1"; "--port"; "9000"]
          []
          [(".env", "PORT=9000"); ("config.yaml", "port: 9000")]
          (fun _ => true) (fun _ _ => true)
          [get_health []; post_health] SIGINT.

(** The same world with [WEB_CONCURRENCY=2] in the environment. *)
Definition two_workers_world : world :=
  mkWorld [] [("WEB_CONCURRENCY", "2")] [] (fun _ => true) (fun _ _ => true)
          [get_health []; post_health] SIGINT.

(** A world whose standard output takes ASCII only. *)
Definition ascii_world : world :=
  mkWorld [] [] []
          (fun line => forallb (fun c => nat_of_ascii c <? 128)
                               (list_ascii_of_string line))
          (fun _ _ => true)
          [get_health []] SIGINT.

Definition taken_world : world :=
  mkWorld [] [] [] (fun _ => true)
          (fun h p => negb (String.eqb h "0.0.0.0" && N.eqb p 8000))
          [get_health []] SIGINT.

End Samples.

(** ** Further vocabulary for the service laws *)

Module Laws.
Import Http Starlette FastAPI Process Main Service Samples.

(** [n] slashes. *)
Fixpoint slashes (n : nat) : string :=
  match n with
  | 0 => EmptyString
  | S n' => String "/"%char (slashes n')
  end.

(** The paths of the routes the application holds, in routing order. *)
Definition route_patterns : list string := map fst documentation ++ ["/health"].

(** The names of the headers of a response, in order. *)
Definition header_names (r : response) : list string :=
  map fst (resp_headers r).

Definition put_health_slashes : request :=
  http_request "PUT" "/health///" "a=1" [("origin", "https://example.com")] "x".

End Laws.

(** * Properties *)

(** ** Header lists *)

Module HeaderFacts.
Import Http.

Lemma get_drop_named_other (k k' : string) (hs : headers) :
  k <> k' -> get_header k (drop_named k' hs) = get_header k hs.
Proof.
  intros Hne. induction hs as [|[a v] hs IH]; simpl; [reflexivity|].
  destruct (String.eqb a k') eqn:Ek'; simpl.
  - apply String.eqb_eq in Ek'. subst a.
    destruct (String.eqb k' k) eqn:Ek; [|exact IH].
    apply String.eqb_eq in Ek. congruence.
  - destruct (String.eqb a k); [reflexivity|exact IH].
Qed.

Lemma get_set_header_same (k v : string) (hs : headers) :
  get_header k (set_header k v hs) = Some v.
Proof.
  induction hs as [|[a w] hs IH]; simpl.
  - now rewrite String.eqb_refl.
  - destruct (String.eqb a k) eqn:E; simpl.
    + now rewrite String.eqb_refl.
    + now rewrite E.
Qed.

Lemma get_set_header_other (k k' v : string) (hs : headers) :
  k <> k' -> get_header k (set_header k' v hs) = get_header k hs.
Proof.
  intros Hne. induction hs as [|[a w] hs IH]; simpl.
  - destruct (String.eqb k' k) eqn:E; [|reflexivity].
    apply String.eqb_eq in E. congruence.
  - destruct (String.eqb a k') eqn:Ek'; simpl.
    + apply String.eqb_eq in Ek'. subst a.
      destruct (String.eqb k' k) eqn:Ek.
      * apply String.eqb_eq in Ek. congruence.
      * now apply get_drop_named_other.
    + destruct (String.eqb a k); [reflexivity|exact IH].
Qed.

Lemma get_add_vary_other (k v : string) (hs : headers) :
  k <> "vary" -> get_header k (add_vary_header v hs) = get_header k hs.
Proof.
  intros Hne. unfold add_vary_header.
  destruct (get_header "vary" hs); now apply get_set_header_other.
Qed.

Lemma get_dict_set_same (k v : string) (d : headers) :
  get_header k (dict_set k v d) = Some v.
Proof.
  induction d as [|[a w] d IH]; simpl.
  - now rewrite String.eqb_refl.
  - destruct (String.eqb a k) eqn:E; simpl; now rewrite E.
Qed.

End HeaderFacts.

(** ** The service under the CORS layer *)

Module ServiceFacts.
Import Http Starlette FastAPI Process Main Service Samples HeaderFacts.

Arguments URL : simpl never.
Arguments registered : simpl never.

Ltac bool_hyps :=
  repeat match goal with
         | H : negb _ = true |- _ => apply negb_true_iff in H
         | H : negb _ = false |- _ => apply negb_false_iff in H
         | H : _ && _ = true |- _ => apply andb_prop in H; destruct H
         end.

(** A registered path is one of the five route paths, or one of them
    followed by a newline. *)
Lemma registered_cases (p : string) :
  registered p = true ->
  exists pattern,
    In pattern (map fst documentation ++ ["/health"])
    /\ (p = pattern \/ p = String.append pattern newline).
Proof.
  unfold registered. intros H. apply existsb_exists in H.
  destruct H as [pattern [Hin Hm]]. exists pattern. split; [exact Hin|].
  unfold path_regex_match in Hm. apply orb_prop in Hm.
  destruct Hm as [Hm|Hm]; apply String.eqb_eq in Hm; auto.
Qed.

(** On an unregistered path every route's path test fails. *)
Lemma unregistered_tests (p : string) :
  registered p = false ->
  path_regex_match "/openapi.json" p = false
  /\ path_regex_match "/docs" p = false
  /\ path_regex_match "/docs/oauth2-redirect" p = false
  /\ path_regex_match "/redoc" p = false
  /\ path_regex_match "/health" p = false.
Proof.
  unfold registered. cbn [map fst documentation app existsb].
  intros H. repeat (apply orb_false_elim in H; destruct H as [? H]).
  repeat split; assumption.
Qed.

(** The second loop of [Router.app] asks whether the path is registered. *)
Lemma any_match_registered {Globals : Type} (pf : platform) (m p : string) :
  existsb (fun rt : Route (state Globals) =>
             match matches rt m p with NONE => false | _ => true end)
          (routes (app pf))
  = registered p.
Proof.
  unfold registered. cbn [app get add_middleware FastAPI_init routes
                          Route_init APIRoute List.app map fst documentation
                          existsb].
  unfold matches, Route_init, APIRoute. cbn [route_path].
  repeat match goal with
         | |- context [path_regex_match ?pat p] =>
             destruct (path_regex_match pat p)
         end;
    cbn;
    repeat match goal with
           | |- context [if ?b then _ else _] => destruct b; cbn
           end;
    reflexivity.
Qed.

(** The first loop of [Router.app] on an unregistered path finds nothing. *)
Lemma find_route_unregistered {Globals : Type} (pf : platform) (m p : string) :
  registered p = false ->
  find_route (routes (@app Globals pf)) m p None = None.
Proof.
  intros H. destruct (unregistered_tests p H) as [H1 [H2 [H3 [H4 H5]]]].
  cbn [app get add_middleware FastAPI_init routes Route_init APIRoute
       List.app find_route].
  unfold matches, Route_init, APIRoute. cbn [route_path].
  now rewrite H1, H2, H3, H4, H5.
Qed.

Lemma inner_unregistered {Globals : Type} (pf : platform)
    (req : request) (s : state Globals) :
  registered (path req) = false ->
  inner pf req s = (unregistered_outcome req, s).
Proof.
  intros Hr. unfold inner, ExceptionMiddleware, Router_app, unregistered_outcome.
  rewrite (find_route_unregistered pf _ _ Hr), any_match_registered.
  cbn [andb].
  destruct (negb (String.eqb (path req) "/")
            && registered (redirect_path (path req))); [|reflexivity].
  destruct (URL req (redirect_path (path req))); reflexivity.
Qed.

Lemma unregistered_not_schema (req : request) :
  registered (path req) = false -> schema_request req = false.
Proof.
  intros Hr. destruct (unregistered_tests _ Hr) as [H1 _].
  unfold schema_request. now rewrite H1.
Qed.

Ltac on_concrete_path m :=
  unfold route_outcome, route_after, schema_request, store_schema;
  unfold inner, ExceptionMiddleware, Router_app;
  cbn -[URL registered];
  unfold handle, matches, method_rejected, path_regex_match, Text.mem,
    openapi_endpoint, openapi;
  cbn -[URL registered];
  repeat first
    [ match goal with
      | H : String.eqb m ?l = _ |- context [String.eqb m ?l] =>
          rewrite H; cbn -[URL registered]
      end
    | match goal with
      | |- context [String.eqb m "GET"] =>
          destruct (String.eqb m "GET") eqn:?; cbn -[URL registered]
      | |- context [String.eqb m "HEAD"] =>
          destruct (String.eqb m "HEAD") eqn:?; cbn -[URL registered]
      end ].

(** What the router yields does not depend on the state, and the state it
    leaves is the one with the schema stored when the schema was served. *)
Lemma inner_outcome {Globals : Type} (pf : platform)
    (req : request) (s : state Globals) :
  inner pf req s = (route_outcome pf req, route_after req s).
Proof.
  destruct (registered (path req)) eqn:Hr.
  - destruct (registered_cases _ Hr) as [pattern [Hin Hp]].
    destruct pf as [hf pint uv], req as [m p q hs b sch srv], s as [stored g].
    cbn [path] in *. cbn in Hin.
    destruct Hin as [<-|[<-|[<-|[<-|[<-|[]]]]]];
      destruct Hp as [->| ->]; destruct hf, stored;
      on_concrete_path m; reflexivity.
  - unfold route_outcome, route_after.
    rewrite !(inner_unregistered pf req _ Hr).
    now rewrite (unregistered_not_schema req Hr).
Qed.

Ltac method_goal :=
  unfold Text.mem; cbn;
  repeat match goal with
         | H : String.eqb _ _ = _ |- _ => rewrite H
         end;
  reflexivity.

Ltac routed_at pattern d :=
  solve [ apply (routed_document _ _ pattern d);
          [ cbn; tauto | reflexivity | method_goal ]
        | match goal with
          | |- routed ?pf ?req _ =>
              apply (routed_document_405 pf req pattern d);
              [ cbn; tauto | reflexivity | method_goal ]
          end ].

Ltac routed_goal :=
  first [ solve [ apply routed_health; [ reflexivity | method_goal ] ]
        | solve [ apply routed_health_405; [ reflexivity | method_goal ] ]
        | routed_at "/openapi.json" OpenAPISchema
        | routed_at "/docs" SwaggerUIPage
        | routed_at "/docs/oauth2-redirect" SwaggerUIOAuth2RedirectPage
        | routed_at "/redoc" ReDocPage ].

Lemma route_outcome_unregistered (pf : platform) (req : request) :
  registered (path req) = false ->
  route_outcome pf req = unregistered_outcome req.
Proof.
  intros Hr. unfold route_outcome. now rewrite (inner_unregistered pf req _ Hr).
Qed.

(** The router follows the routing table. *)
Lemma route_outcome_routed (pf : platform) (req : request) :
  routed pf req (route_outcome pf req).
Proof.
  destruct (registered (path req)) eqn:Hr.
  - destruct (registered_cases _ Hr) as [pattern [Hin Hp]].
    destruct pf as [hf pint uv], req as [m p q hs b sch srv].
    cbn [path] in *. cbn in Hin.
    destruct Hin as [<-|[<-|[<-|[<-|[<-|[]]]]]];
      destruct Hp as [->| ->]; destruct hf;
      on_concrete_path m; routed_goal.
  - rewrite (route_outcome_unregistered pf req Hr). unfold unregistered_outcome.
    destruct (negb (String.eqb (path req) "/")
              && registered (redirect_path (path req))) eqn:Hc.
    + apply andb_prop in Hc. destruct Hc as [_ Hc].
      destruct (URL req (redirect_path (path req))) eqn:Hu.
      * now apply routed_redirect.
      * now apply routed_decode_error.
    + apply routed_not_found; [exact Hr|].
      destruct (String.eqb (path req) "/") eqn:Eroot.
      * right. now apply String.eqb_eq.
      * left. exact Hc.
Qed.

(** *** The whole stack *)

(** The response of the stack does not depend on the state, and the state
    it leaves is [after]. *)
Lemma respond_pure {Globals : Type} (pf : platform)
    (req : request) (s : state Globals) :
  respond pf req s = (service_response pf req, after req s).
Proof.
  unfold respond, call, build_middleware_stack, ServerErrorMiddleware,
    service_response, after, reaches_schema, is_preflight, contains.
  change (user_middleware (@app Globals pf)) with [Middleware_CORS cors].
  cbn [fold_right wrap]. unfold cors_call.
  change (ExceptionMiddleware http_exception_handler
            (Router_app (routes (@app Globals pf)) true))
    with (@inner Globals pf).
  fold policy. rewrite inner_outcome. fold (route_after req s). cbv zeta.
  destruct (get_header "origin" (req_headers req)) as [origin|]; cbn [andb negb].
  - destruct (String.eqb (method req) "OPTIONS"); cbn [andb negb].
    + destruct (get_header "access-control-request-method" (req_headers req));
        cbn [andb negb]; [reflexivity|].
      unfold route_after. destruct (route_outcome pf req); reflexivity.
    + unfold route_after. destruct (route_outcome pf req); reflexivity.
  - unfold route_after. destruct (route_outcome pf req); reflexivity.
Qed.

Lemma route_health (pf : platform) (req : request) :
  method req = "GET" -> path req = "/health" ->
  route_outcome pf req = Returned (JSONResponse health_body 200 []).
Proof.
  destruct pf as [hf pint uv], req as [m p q hs b sch srv]; cbn.
  intros -> ->. destruct hf; reflexivity.
Qed.

Lemma after_health {Globals : Type} (req : request) (s : state Globals) :
  path req = "/health" -> after req s = s.
Proof.
  intros Hp. unfold after, reaches_schema, schema_request. rewrite Hp.
  cbn. now rewrite andb_false_r.
Qed.

Lemma service_health (pf : platform) (req : request) :
  method req = "GET" -> path req = "/health" ->
  status (service_response pf req) = 200
  /\ resp_body (service_response pf req) = BJson health_body.
Proof.
  intros Hm Hp. unfold service_response.
  rewrite (route_health pf req Hm Hp), Hm. cbn.
  destruct (get_header "origin" (req_headers req)); split; reflexivity.
Qed.

(** *** When the router raises *)

Lemma URL_none (req : request) (p : string) :
  URL req p = None <->
  String.eqb (query_string req) EmptyString = false
  /\ Text.utf8_valid (query_string req) = false.
Proof.
  unfold URL. cbv zeta.
  destruct (String.eqb (query_string req) EmptyString);
    destruct (Text.utf8_valid (query_string req));
    split; try discriminate; try (intros [? ?]; discriminate); auto.
Qed.

Lemma redirect_of_root_unregistered : registered (redirect_path "/") = false.
Proof. reflexivity. Qed.

(** Outside a preflight, [redirect_fails] says when the router raises. *)
Lemma outcome_raised (pf : platform) (req : request) (x : raised) :
  route_outcome pf req = Raised x ->
  is_preflight req = false -> redirect_fails req = true.
Proof.
  intros E Hp. pose proof (route_outcome_routed pf req) as H. rewrite E in H.
  inversion H as [| | | | |Hr Hr' Hu|]. apply URL_none in Hu.
  destruct Hu as [Hq Hv]. unfold redirect_fails.
  now rewrite Hp, Hr, Hr', Hq, Hv.
Qed.

Lemma outcome_returned (pf : platform) (req : request) :
  redirect_fails req = false -> is_preflight req = false ->
  exists r, route_outcome pf req = Returned r.
Proof.
  intros Hf Hp. destruct (route_outcome pf req) as [r|x] eqn:E; [eauto|].
  rewrite (outcome_raised pf req x E Hp) in Hf. discriminate.
Qed.

Lemma redirect_fails_raises (pf : platform) (req : request) :
  redirect_fails req = true ->
  is_preflight req = false
  /\ route_outcome pf req = Raised UnicodeDecodeError.
Proof.
  unfold redirect_fails. intros H. bool_hyps.
  split; [assumption|].
  rewrite (route_outcome_unregistered pf req) by assumption.
  unfold unregistered_outcome.
  assert (Hroot : String.eqb (path req) "/" = false).
  { destruct (String.eqb (path req) "/") eqn:E; [|reflexivity].
    apply String.eqb_eq in E. rewrite E in *.
    rewrite redirect_of_root_unregistered in *. discriminate. }
  rewrite Hroot. cbn [negb andb].
  match goal with H : registered (redirect_path _) = true |- _ => rewrite H end.
  assert (Hu : URL req (redirect_path (path req)) = None)
    by (apply URL_none; split; assumption).
  now rewrite Hu.
Qed.

(** *** The three branches of [CORSMiddleware.__call__] *)

Lemma service_without_origin (pf : platform) (req : request) :
  get_header "origin" (req_headers req) = None ->
  service_response pf req
  = match route_outcome pf req with
    | Returned r => r
    | Raised _ => error_response
    end.
Proof. unfold service_response. now intros ->. Qed.

Lemma service_preflight (pf : platform) (req : request)
    (origin requested_method : string) :
  get_header "origin" (req_headers req) = Some origin ->
  method req = "OPTIONS" ->
  get_header "access-control-request-method" (req_headers req)
  = Some requested_method ->
  is_preflight req = true
  /\ service_response pf req
     = preflight_response policy origin requested_method
         (get_header "access-control-request-headers" (req_headers req)).
Proof.
  intros Ho Hm Hr. unfold is_preflight, service_response, contains.
  now rewrite Ho, Hm, Hr.
Qed.

Lemma service_simple (pf : platform) (req : request) (origin : string) :
  get_header "origin" (req_headers req) = Some origin ->
  is_preflight req = false ->
  service_response pf req
  = match route_outcome pf req with
    | Returned r => cors_send policy (req_headers req) origin r
    | Raised _ => error_response
    end.
Proof.
  intros Ho Hp. unfold is_preflight, service_response, contains in *.
  rewrite Ho in *. cbn [andb] in Hp.
  destruct (String.eqb (method req) "OPTIONS"); [|reflexivity].
  destruct (get_header "access-control-request-method" (req_headers req));
    [discriminate|reflexivity].
Qed.

(** A preflight carries the three things [__call__] looks for. *)
Lemma is_preflight_inv (req : request) :
  is_preflight req = true ->
  exists origin requested_method,
    get_header "origin" (req_headers req) = Some origin
    /\ method req = "OPTIONS"
    /\ get_header "access-control-request-method" (req_headers req)
       = Some requested_method.
Proof.
  unfold is_preflight, contains. intros H.
  apply andb_prop in H. destruct H as [H Hr].
  apply andb_prop in H. destruct H as [Ho Hm].
  destruct (get_header "origin" (req_headers req)) as [origin|]; [|discriminate].
  destruct (get_header "access-control-request-method" (req_headers req))
    as [rm|]; [|discriminate].
  exists origin, rm. repeat split. now apply String.eqb_eq.
Qed.

(** What [send] does to the headers of a wrapped response under the
    program's policy. *)
Lemma cors_send_policy (hs : headers) (origin : string) (r : response) :
  resp_headers (cors_send policy hs origin r)
  = let decorated :=
      set_header "access-control-allow-credentials" "true"
        (set_header "access-control-allow-origin" "*" (resp_headers r)) in
    if contains "cookie" hs
    then add_vary_header "Origin"
           (set_header "access-control-allow-origin" origin decorated)
    else decorated.
Proof.
  unfold cors_send. cbn [resp_headers].
  change (allow_all_origins policy) with true. cbn [andb negb].
  change (update (simple_headers policy) (resp_headers r))
    with (set_header "access-control-allow-credentials" "true"
            (set_header "access-control-allow-origin" "*" (resp_headers r))).
  reflexivity.
Qed.

(** The preflight response under the program's policy. *)
Lemma preflight_policy (origin requested_method : string) (rh : option string) :
  preflight_response policy origin requested_method rh
  = let hs :=
      [("vary", "Origin");
       ("access-control-allow-methods",
        "DELETE, GET, HEAD, OPTIONS, PATCH, POST, PUT");
       ("access-control-max-age", "600");
       ("access-control-allow-credentials", "true");
       ("access-control-allow-origin", origin)]
      ++ match rh with
         | Some requested => [("access-control-allow-headers", requested)]
         | None => []
         end in
    if Text.mem requested_method ALL_METHODS
    then mkResponse 200 hs (BText "OK")
    else mkResponse 400 hs (BText "Disallowed CORS method").
Proof.
  unfold preflight_response.
  change (self_allow_methods policy) with ALL_METHODS.
  destruct (Text.mem requested_method ALL_METHODS); destruct rh; reflexivity.
Qed.

(** Outside a preflight, and unless the router raises, the CORS layer
    touches the headers only. *)
Lemma service_keeps_route (pf : platform) (req : request) (r : response) :
  is_preflight req = false ->
  route_outcome pf req = Returned r ->
  status (service_response pf req) = status r
  /\ resp_body (service_response pf req) = resp_body r.
Proof.
  intros Hp E.
  destruct (get_header "origin" (req_headers req)) as [origin|] eqn:Ho.
  - rewrite (service_simple pf req origin Ho Hp), E. split; reflexivity.
  - rewrite (service_without_origin pf req Ho), E. split; reflexivity.
Qed.

(** When the router raises, the answer is the bare error response. *)
Lemma service_error (pf : platform) (req : request) :
  redirect_fails req = true -> service_response pf req = error_response.
Proof.
  intros Hf. destruct (redirect_fails_raises pf req Hf) as [Hp E].
  destruct (get_header "origin" (req_headers req)) as [origin|] eqn:Ho.
  - now rewrite (service_simple pf req origin Ho Hp), E.
  - now rewrite (service_without_origin pf req Ho), E.
Qed.

(** The middleware answers a preflight itself: 200 or 400, in plain text. *)
Lemma service_preflight_answer (pf : platform) (req : request) :
  is_preflight req = true ->
  exists requested_method,
    get_header "access-control-request-method" (req_headers req)
    = Some requested_method
    /\ status (service_response pf req)
       = (if Text.mem requested_method ALL_METHODS then 200 else 400)
    /\ resp_body (service_response pf req)
       = BText (if Text.mem requested_method ALL_METHODS
                then "OK" else "Disallowed CORS method").
Proof.
  intros Hp. destruct (is_preflight_inv req Hp) as [o [rm [Ho [Hm Hr]]]].
  exists rm. split; [exact Hr|].
  destruct (service_preflight pf req o rm Ho Hm Hr) as [_ ->].
  rewrite preflight_policy. cbv zeta.
  destruct (Text.mem rm ALL_METHODS); split; reflexivity.
Qed.

End ServiceFacts.

(** ** The health route *)

Module HealthRoute.
Import Http Starlette FastAPI Process Main Service Samples ServiceFacts.

(** C1: every [GET /health] is answered with status 200 and the JSON object
    with the field [status] set to [ok] and the field [service] set to
    [python-backend]: these two fields, in this order, and no other. *)
Theorem health_get_returns_ok {Globals : Type} (pf : platform)
    (req : request) (s : state Globals) :
  method req = "GET" -> path req = "/health" ->
  status (fst (respond pf req s)) = 200
  /\ resp_body (fst (respond pf req s))
     = BJson (JObject [("status", JString "ok");
                       ("service", JString "python-backend")]).
Proof.
  intros Hm Hp. rewrite respond_pure. cbn [fst].
  exact (service_health pf req Hm Hp).
Qed.

Lemma health_get_returns_ok_witness :
  method (get_health []) = "GET" /\ path (get_health []) = "/health"
  /\ status (fst (respond older_platform (get_health []) initial)) = 200
  /\ resp_body (fst (respond older_platform (get_health []) initial))
     = BJson (JObject [("status", JString "ok");
                       ("service", JString "python-backend")]).
Proof.
  split; [reflexivity|]. split; [reflexivity|].
  apply (health_get_returns_ok older_platform (get_health []) initial);
    reflexivity.
Defined.

(** The state the server loop leaves: each request's own effect, in turn. *)
Lemma serve_store {Globals : Type} (pf : platform)
    (reqs : list request) (p : process (state Globals)) :
  store (serve (call (app pf)) reqs p)
  = fold_left (fun s req => after req s) reqs (store p).
Proof.
  revert p. induction reqs as [|req rest IH]; intros p; cbn [serve fold_left].
  - reflexivity.
  - change (call (app pf) req (store p)) with (respond pf req (store p)).
    rewrite respond_pure. now rewrite IH.
Qed.

(** What the server loop adds to the trace: an access-log line and a
    [Served] event per request, with the response of the stack. *)
Lemma serve_trace {Globals : Type} (pf : platform)
    (reqs : list request) (p : process (state Globals)) :
  trace (serve (call (app pf)) reqs p)
  = trace p
    ++ flat_map (fun req =>
                   [AccessLogged req (status (service_response pf req));
                    Served req (service_response pf req)]) reqs.
Proof.
  revert p. induction reqs as [|req rest IH]; intros p; cbn [serve flat_map].
  - now rewrite app_nil_r.
  - change (call (app pf) req (store p)) with (respond pf req (store p)).
    rewrite respond_pure, IH. cbn [trace]. now rewrite <- app_assoc.
Qed.

(** C2: two calls of [GET /health], whatever the requests look like and
    whatever the state of the process at either call, both get status 200 and
    the same body; neither call changes the state, and the handler returns
    the same value from every state. *)
Theorem health_deterministic_stateless {Globals : Type} (pf : platform)
    (r1 r2 : request) (s1 s2 : state Globals) :
  method r1 = "GET" -> path r1 = "/health" ->
  method r2 = "GET" -> path r2 = "/health" ->
  status (fst (respond pf r1 s1)) = 200
  /\ status (fst (respond pf r2 s2)) = 200
  /\ resp_body (fst (respond pf r1 s1)) = resp_body (fst (respond pf r2 s2))
  /\ snd (respond pf r1 s1) = s1
  /\ snd (respond pf r2 s2) = s2
  /\ fst (health (globals s1)) = fst (health (globals s2))
  /\ snd (health (globals s1)) = globals s1.
Proof.
  intros Hm1 Hp1 Hm2 Hp2. rewrite !respond_pure. cbn [fst snd].
  destruct (service_health pf r1 Hm1 Hp1) as [St1 B1].
  destruct (service_health pf r2 Hm2 Hp2) as [St2 B2].
  rewrite St1, St2, B1, B2, (after_health r1 s1 Hp1), (after_health r2 s2 Hp2).
  repeat split.
Qed.

Lemma health_deterministic_stateless_witness :
  (method (get_health []) = "GET" /\ path (get_health []) = "/health")
  /\ (method get_health_busy = "GET" /\ path get_health_busy = "/health")
  /\ status (fst (respond older_platform (get_health []) (mkState false 0))) = 200
  /\ status (fst (respond older_platform get_health_busy (mkState true 7))) = 200
  /\ resp_body (fst (respond older_platform (get_health []) (mkState false 0)))
     = resp_body (fst (respond older_platform get_health_busy (mkState true 7)))
  /\ snd (respond older_platform (get_health []) (mkState false 0))
     = mkState false 0
  /\ snd (respond older_platform get_health_busy (mkState true 7))
     = mkState true 7
  /\ fst (health 0) = fst (health 7)
  /\ snd (health 0) = 0.
Proof.
  split; [split; reflexivity|]. split; [split; reflexivity|].
  apply (health_deterministic_stateless older_platform
           (get_health []) get_health_busy (mkState false 0) (mkState true 7));
    reflexivity.
Defined.

(** Any number of requests in any order: every [GET /health] among them is
    served with status 200 and the health body. *)
Lemma serve_health_repeated {Globals : Type} (pf : platform)
    (reqs : list request) (s : state Globals) :
  forall req r,
    In (req, r) (served (trace (serve (call (app pf)) reqs (fresh s)))) ->
    method req = "GET" -> path req = "/health" ->
    status r = 200 /\ resp_body r = BJson health_body.
Proof.
  intros req r Hin Hm Hp. rewrite serve_trace in Hin. cbn [fresh trace app] in Hin.
  unfold served in Hin. apply in_flat_map in Hin. destruct Hin as [e [He Hr]].
  apply in_flat_map in He. destruct He as [req' [_ He]].
  cbn in He. destruct He as [<-|[<-|[]]]; cbn in Hr; [contradiction|].
  destruct Hr as [Hr|[]]. inversion Hr; subst.
  now apply service_health.
Qed.




End HealthRoute.

(** ** The CORS policy *)

Module Cors.
Import Http Starlette FastAPI Process Main Service Samples HeaderFacts ServiceFacts.

Lemma cors_send_allow_origin (hs : headers) (origin : string) (r : response) :
  allow_origin (cors_send policy hs origin r)
  = Some (if contains "cookie" hs then origin else "*").
Proof.
  unfold allow_origin. rewrite cors_send_policy. cbv zeta.
  destruct (contains "cookie" hs).
  - rewrite get_add_vary_other by discriminate. apply get_set_header_same.
  - rewrite get_set_header_other by discriminate. apply get_set_header_same.
Qed.


(** A request with an origin is let in, unless its redirect fails. *)
Lemma service_permits (pf : platform) (req : request) (origin : string) :
  get_header "origin" (req_headers req) = Some origin ->
  redirect_fails req = false ->
  permits (service_response pf req) (Some origin).
Proof.
  intros Ho Hf. destruct (is_preflight req) eqn:Hp.
  - destruct (is_preflight_inv req Hp) as [o [rm [Ho' [Hm Hr]]]].
    assert (o = origin) by congruence. subst o.
    destruct (service_preflight pf req origin rm Ho Hm Hr) as [_ ->].
    rewrite preflight_policy. cbv zeta. exists origin.
    split; [|now right].
    destruct (Text.mem rm ALL_METHODS); reflexivity.
  - destruct (outcome_returned pf req Hf Hp) as [r E].
    rewrite (service_simple pf req origin Ho Hp), E.
    eexists. split; [apply cors_send_allow_origin|].
    destruct (contains "cookie" (req_headers req)); auto.
Qed.


(** C3, as stated, fails twice.  A [GET /health] that carries no [Origin]
    header is answered without any [Access-Control-Allow-Origin] header.  And
    a request with an [Origin] header to [/health/] whose query string is no
    UTF-8 is answered with the bare 500 of the server-error layer, which has
    no such header either. *)
Lemma no_origin_no_cors_header :
  (allow_origin (fst (respond older_platform (get_health []) initial)) = None
   /\ ~ permits (fst (respond older_platform (get_health []) initial))
          (get_header "origin" (req_headers (get_health []))))
  /\ (get_header "origin" (req_headers get_health_slash_bad_query)
      = Some "https://example.com"
      /\ fst (respond older_platform get_health_slash_bad_query initial)
         = mkResponse 500 [] (BText "Internal Server Error")
      /\ ~ permits (fst (respond older_platform get_health_slash_bad_query initial))
             (Some "https://example.com")).
Proof.
  split; [split; [reflexivity|]|split; [reflexivity|split; [reflexivity|]]];
    intros [v [Hv _]]; discriminate Hv.
Qed.

(** C3, amended: a request that carries an [Origin] header, whatever its
    method and path, a preflight included, is answered with an
    [Access-Control-Allow-Origin] header that lets its origin in; the one
    exception is the request the router would redirect for its trailing
    slash but whose query string does not decode. *)
Theorem cors_allow_origin {Globals : Type} (pf : platform)
    (req : request) (s : state Globals) (origin : string) :
  get_header "origin" (req_headers req) = Some origin ->
  redirect_fails req = false ->
  permits (fst (respond pf req s)) (Some origin).
Proof.
  intros Ho Hf. rewrite respond_pure. cbn [fst].
  now apply service_permits.
Qed.

Lemma cors_allow_origin_witness :
  get_header "origin" (req_headers get_health_slash) = Some "https://example.com"
  /\ redirect_fails get_health_slash = false
  /\ permits (fst (respond older_platform get_health_slash initial))
       (Some "https://example.com").
Proof.
  split; [reflexivity|]. split; [reflexivity|].
  apply (cors_allow_origin older_platform get_health_slash initial
           "https://example.com"); reflexivity.
Defined.




End Cors.

(** ** Routing: other paths, other methods *)

Module Routing.
Import Http Starlette FastAPI Process Main Service Samples HeaderFacts ServiceFacts.

Lemma documentation_documented (pattern : string) (d : document) (p : string) :
  In (pattern, d) documentation ->
  path_regex_match pattern p = true -> documented p = true.
Proof.
  intros Hin Hm. unfold documented. apply existsb_exists.
  exists pattern. split; [|exact Hm].
  change pattern with (fst (pattern, d)). now apply in_map.
Qed.

Lemma registered_documented (p : string) :
  registered p = false -> documented p = false.
Proof.
  unfold registered, documented. rewrite existsb_app. intros H.
  now apply orb_false_elim in H.
Qed.

(** The router on a path the health route does not accept. *)
Lemma routed_other_path (pf : platform) (req : request) (r : response) :
  routed pf req (Returned r) ->
  path_regex_match "/health" (path req) = false ->
  resp_body r <> BJson health_body
  /\ (documented (path req) && Text.mem (method req) ["GET"; "HEAD"] = false ->
      is_2xx (status r) = false).
Proof.
  intros H Hh.
  inversion H as [Hp _|Hp _|pattern d Hin Hp Hm|pattern d Hin Hp Hm
                 |url Hr _ _| |Hr _]; subst; try congruence.
  - pose proof (documentation_documented _ _ _ Hin Hp) as Hd.
    rewrite Hd, Hm. cbn [andb]. split; [|discriminate].
    destruct d; discriminate.
  - split; [discriminate|reflexivity].
  - split; [discriminate|reflexivity].
  - split; [discriminate|reflexivity].
Qed.

Lemma not_health_path (p : string) :
  p <> "/health" -> p <> String.append "/health" newline ->
  path_regex_match "/health" p = false.
Proof.
  intros H1 H2. unfold path_regex_match. apply orb_false_intro.
  - destruct (String.eqb p "/health") eqn:E; [|reflexivity].
    apply String.eqb_eq in E. contradiction.
  - destruct (String.eqb p (String.append "/health" newline)) eqn:E;
      [|reflexivity].
    apply String.eqb_eq in E. contradiction.
Qed.

(** C5, as stated, fails: [GET /docs], a path other than [/health], is
    answered with status 200 by the documentation route [FastAPI()]
    registers; so is a preflight to a path that no route knows; and the
    health route also accepts [/health] followed by a newline, which then
    gets the health body. *)
Lemma docs_route_answers_200 :
  (path get_docs <> "/health"
   /\ status (fst (respond older_platform get_docs initial)) = 200
   /\ is_2xx (status (fst (respond older_platform get_docs initial))) = true)
  /\ (path (preflight_request "/nowhere" "GET") <> "/health"
      /\ status (fst (respond older_platform (preflight_request "/nowhere" "GET")
                        initial)) = 200)
  /\ (path get_health_newline <> "/health"
      /\ fst (respond older_platform get_health_newline initial)
         = JSONResponse health_body 200 []).
Proof.
  repeat split; try reflexivity; discriminate.
Qed.

(** C5, amended: a request whose path the health route does not accept (it
    accepts [/health], and [/health] followed by one newline) never gets the
    health body, and its status is not 2xx, unless it is a CORS preflight,
    which the middleware answers itself whatever the path, or a [GET] or
    [HEAD] of one of the four documentation routes. *)
Theorem other_paths_not_health {Globals : Type} (pf : platform)
    (req : request) (s : state Globals) :
  path req <> "/health" ->
  path req <> String.append "/health" newline ->
  resp_body (fst (respond pf req s)) <> BJson health_body
  /\ (is_preflight req = false ->
      documented (path req) && Text.mem (method req) ["GET"; "HEAD"] = false ->
      is_2xx (status (fst (respond pf req s))) = false).
Proof.
  intros H1 H2. pose proof (not_health_path _ H1 H2) as Hh.
  rewrite respond_pure. cbn [fst].
  destruct (is_preflight req) eqn:Hp.
  - destruct (service_preflight_answer pf req Hp) as [rm [_ [_ Hb]]].
    split; [rewrite Hb; discriminate|discriminate].
  - destruct (redirect_fails req) eqn:Hf.
    + rewrite (service_error pf req Hf). split; [discriminate|reflexivity].
    + destruct (outcome_returned pf req Hf Hp) as [r E].
      pose proof (route_outcome_routed pf req) as Hr. rewrite E in Hr.
      destruct (routed_other_path pf req r Hr Hh) as [Hb Hs].
      destruct (service_keeps_route pf req r Hp E) as [-> ->].
      split; [exact Hb|]. intros _. exact Hs.
Qed.

Lemma other_paths_not_health_witness :
  path get_unknown <> "/health"
  /\ path get_unknown <> String.append "/health" newline
  /\ resp_body (fst (respond older_platform get_unknown initial))
     <> BJson health_body
  /\ is_2xx (status (fst (respond older_platform get_unknown initial))) = false.
Proof.
  assert (H1 : path get_unknown <> "/health") by discriminate.
  assert (H2 : path get_unknown <> String.append "/health" newline)
    by discriminate.
  split; [exact H1|]. split; [exact H2|].
  destruct (other_paths_not_health older_platform get_unknown initial H1 H2)
    as [Hb Hs].
  split; [exact Hb|]. exact (Hs eq_refl eq_refl).
Defined.

(** The router on [/health] with another method. *)
Lemma route_health_other_method (pf : platform) (req : request) :
  path req = "/health" -> method req <> "GET" ->
  route_outcome pf req = Returned (method_not_allowed "GET").
Proof.
  destruct pf as [hf pint uv], req as [m p q hs b sch srv]; cbn [path method].
  intros -> Hm.
  assert (E : String.eqb m "GET" = false).
  { destruct (String.eqb m "GET") eqn:E; [|reflexivity].
    apply String.eqb_eq in E. contradiction. }
  destruct hf; on_concrete_path m; reflexivity.
Qed.

(** C6, as stated, fails: a preflight to [/health] that asks for [TRACE] is
    a non-GET request to [/health], and the middleware answers it with 400,
    which is none of 200, 404 and 405. *)
Lemma health_preflight_answers_400 :
  path (preflight_request "/health" "TRACE") = "/health"
  /\ method (preflight_request "/health" "TRACE") <> "GET"
  /\ status (fst (respond older_platform (preflight_request "/health" "TRACE")
                    initial)) = 400
  /\ ~ (status (fst (respond older_platform (preflight_request "/health" "TRACE")
                       initial)) = 200
        \/ status (fst (respond older_platform
                          (preflight_request "/health" "TRACE") initial)) = 404
        \/ status (fst (respond older_platform
                          (preflight_request "/health" "TRACE") initial)) = 405).
Proof.
  split; [reflexivity|]. split; [discriminate|]. split; [reflexivity|].
  intros [H|[H|H]]; discriminate H.
Qed.

(** C6, amended: a request to [/health] with a method other than [GET] is
    answered with 405; unless it is a CORS preflight, which the middleware
    answers before routing, with 200 or, when it refuses it, with 400. *)
Theorem health_other_methods {Globals : Type} (pf : platform)
    (req : request) (s : state Globals) :
  path req = "/health" -> method req <> "GET" ->
  (is_preflight req = false -> status (fst (respond pf req s)) = 405)
  /\ (is_preflight req = true ->
      status (fst (respond pf req s)) = 200
      \/ status (fst (respond pf req s)) = 400).
Proof.
  intros Hp Hm. rewrite respond_pure. cbn [fst]. split.
  - intros Hpre.
    destruct (service_keeps_route pf req _ Hpre
                (route_health_other_method pf req Hp Hm)) as [-> _].
    reflexivity.
  - intros Hpre.
    destruct (service_preflight_answer pf req Hpre) as [rm [_ [-> _]]].
    destruct (Text.mem rm ALL_METHODS); auto.
Qed.

Lemma health_other_methods_witness :
  path post_health = "/health" /\ method post_health <> "GET"
  /\ status (fst (respond older_platform post_health initial)) = 405.
Proof.
  assert (Hm : method post_health <> "GET") by discriminate.
  split; [reflexivity|]. split; [exact Hm|].
  exact (proj1 (health_other_methods older_platform post_health initial
                  eq_refl Hm) eq_refl).
Defined.

End Routing.

(** ** The entry point *)

Module EntryPoint.
Import Http Starlette FastAPI Process Main Service Samples ServiceFacts.

Lemma printed_exchanges (pf : platform) (reqs : list request) :
  printed (exchanges pf reqs) = [].
Proof. induction reqs; [reflexivity|exact IHreqs]. Qed.

Lemma bind_attempts_exchanges (pf : platform) (reqs : list request) :
  bind_attempts (exchanges pf reqs) = [].
Proof. induction reqs; [reflexivity|exact IHreqs]. Qed.


Lemma served_exchanges (pf : platform) (reqs : list request) :
  served (exchanges pf reqs)
  = map (fun req => (req, service_response pf req)) reqs.
Proof. induction reqs; [reflexivity|]. cbn. now f_equal. Qed.

(** The trace of the server loop started in a fresh process that has
    logged the events [t]. *)
Lemma serve_from {Globals : Type} (pf : platform)
    (reqs : list request) (t : list event) (s : state Globals) :
  trace (serve (call (app pf)) reqs (mkProcess t s)) = t ++ exchanges pf reqs.
Proof.
  revert t s. induction reqs as [|req rest IH]; intros t s; cbn [serve].
  - cbn. now rewrite app_nil_r.
  - cbn [store trace].
    change (call (app pf) req s) with (respond pf req s).
    rewrite respond_pure, IH. unfold exchanges. cbn [flat_map].
    now rewrite <- app_assoc.
Qed.

Lemma script_trace {Globals : Type} (pf : platform)
    (w : world) (s : state Globals) :
  can_encode w banner1 = true -> can_encode w banner2 = true ->
  trace (snd (main pf "__main__" w (fresh s)))
  = Printed banner1 :: Printed banner2 :: after_banners pf w.
Proof.
  intros H1 H2. unfold main, after_banners.
  change (String.eqb "__main__" "__main__") with true.
  unfold bind, print, uvicorn_run, ret, fresh, log. cbv beta iota zeta.
  rewrite H1. cbn [trace store List.app]. rewrite H2. cbn [trace store List.app].
  destruct (workers pf w) as [n|]; [|reflexivity].
  destruct (1 <? n)%Z; [reflexivity|].
  destruct (can_bind w "0.0.0.0" 8000%N).
  - cbn [trace store List.app].
    destruct (stop w); cbn [snd]; now rewrite serve_from.
  - reflexivity.
Qed.

(** C8, as stated, fails.  The start depends on the environment: with
    [WEB_CONCURRENCY=2], in a world that is otherwise the quiet one, the
    script exits with status 1 before any bind, where the quiet world gets a
    listening server.  On a standard output that cannot encode the banner
    lines, nothing is printed and the server is never started.  And standard
    output carries more than the two lines: the access log follows them. *)
Lemma environment_decides_the_start :
  (fst (main older_platform "__main__" two_workers_world (fresh initial))
   = Exc (SystemExit 1)
   /\ bind_attempts
        (trace (snd (main older_platform "__main__" two_workers_world
                       (fresh initial)))) = []
   /\ listening
        (trace (snd (main older_platform "__main__" quiet_world (fresh initial))))
      = [("0.0.0.0", 8000%N)])
  /\ (fst (main older_platform "__main__" ascii_world (fresh initial))
      = Exc UnicodeEncodeError
      /\ trace (snd (main older_platform "__main__" ascii_world (fresh initial)))
         = [])
  /\ stdout (trace (snd (main older_platform "__main__" quiet_world
                           (fresh initial))))
     = [Printed banner1; Printed banner2;
        AccessLogged (get_health []) 200; AccessLogged post_health 405].
Proof.
  repeat split.
Qed.

(** C8, amended: run as a script on a standard output that can encode the
    two banner lines, the module prints them, and prints nothing else (what
    follows on standard output is the server's access log); then it calls
    [uvicorn.run] with host [0.0.0.0] and port 8000: no bind is attempted on
    any other address, and the server listens there, and serves what
    arrives, when the address can be bound and [WEB_CONCURRENCY], which
    uvicorn reads from the environment, asks for no more than one worker.
    The command line and the files around the program play no part: the run
    is the same whatever they are. *)
Theorem script_prints_then_serves {Globals : Type} (pf : platform)
    (w : world) (s : state Globals) :
  can_encode w banner1 = true -> can_encode w banner2 = true ->
  (exists rest,
     trace (snd (main pf "__main__" w (fresh s)))
     = Printed banner1 :: Printed banner2 :: rest
     /\ printed rest = []
     /\ (forall a, In a (bind_attempts rest) -> a = ("0.0.0.0", 8000%N))
     /\ (forall n,
           workers pf w = Some n -> (n <= 1)%Z ->
           can_bind w "0.0.0.0" 8000%N = true ->
           exists tail,
             rest = Listening "0.0.0.0" 8000%N :: tail
             /\ served tail
                = map (fun req => (req, service_response pf req)) (incoming w)))
  /\ printed (trace (snd (main pf "__main__" w (fresh s)))) = [banner1; banner2]
  /\ (forall args fs,
        main pf "__main__"
          (mkWorld args (environ w) fs (can_encode w) (can_bind w)
                   (incoming w) (stop w)) (fresh s)
        = main pf "__main__" w (fresh s)).
Proof.
  intros H1 H2.
  assert (Hrest : printed (after_banners pf w) = []
                  /\ (forall a, In a (bind_attempts (after_banners pf w)) ->
                                a = ("0.0.0.0", 8000%N))).
  { unfold after_banners. destruct (workers pf w) as [n|]; [|now split].
    destruct (1 <? n)%Z; [now split|].
    destruct (can_bind w "0.0.0.0" 8000%N); cbn.
    - rewrite printed_exchanges, bind_attempts_exchanges. split; [reflexivity|].
      intros a [<-|[]]. reflexivity.
    - split; [reflexivity|]. intros a [<-|[]]. reflexivity. }
  destruct Hrest as [Hprinted Hbind].
  split; [|split].
  - exists (after_banners pf w).
    split; [now apply script_trace|]. split; [exact Hprinted|].
    split; [exact Hbind|].
    intros n Hn Hle Hb. unfold after_banners. rewrite Hn, Hb.
    assert (E : (1 <? n)%Z = false) by (apply Z.ltb_ge; exact Hle).
    rewrite E. eexists. split; [reflexivity|]. apply served_exchanges.
  - rewrite (script_trace pf w s H1 H2).
    change (printed (Printed banner1 :: Printed banner2 :: after_banners pf w))
      with (banner1 :: banner2 :: printed (after_banners pf w)).
    now rewrite Hprinted.
  - intros args fs. reflexivity.
Qed.

Lemma script_prints_then_serves_witness :
  can_encode quiet_world banner1 = true
  /\ can_encode quiet_world banner2 = true
  /\ printed (trace (snd (main older_platform "__main__" quiet_world
                            (fresh initial)))) = [banner1; banner2]
  /\ main older_platform "__main__" configured_world (fresh initial)
     = main older_platform "__main__" quiet_world (fresh initial).
Proof.
  split; [reflexivity|]. split; [reflexivity|].
  destruct (script_prints_then_serves older_platform quiet_world initial
              eq_refl eq_refl) as [_ [Hp Hw]].
  split; [exact Hp|].
  exact (Hw (argv configured_world) (files configured_world)).
Defined.

(** C9: when port 8000 on [0.0.0.0] cannot be bound, the script ends with
    a status other than 0: the exit raised out of [uvicorn.run] is caught by
    nothing in the module.  The process never listens, serves no request,
    and makes at most one bind attempt: there is no retry. *)
Theorem bind_failure_is_fatal {Globals : Type} (pf : platform)
    (w : world) (s : state Globals) :
  can_bind w "0.0.0.0" 8000%N = false ->
  exit_status (fst (main pf "__main__" w (fresh s))) <> 0
  /\ listening (trace (snd (main pf "__main__" w (fresh s)))) = []
  /\ served (trace (snd (main pf "__main__" w (fresh s)))) = []
  /\ length (bind_attempts (trace (snd (main pf "__main__" w (fresh s))))) <= 1.
Proof.
  intros Hb. unfold main.
  change (String.eqb "__main__" "__main__") with true.
  unfold bind, print, uvicorn_run, ret, fresh, log. cbv beta iota zeta.
  destruct (can_encode w banner1); cbn [trace store List.app fst snd];
    [|cbn; repeat split; [discriminate|lia]].
  destruct (can_encode w banner2); cbn [trace store List.app fst snd];
    [|cbn; repeat split; [discriminate|lia]].
  destruct (workers pf w) as [n|]; [|cbn; repeat split; [discriminate|lia]].
  destruct (1 <? n)%Z; [cbn; repeat split; [discriminate|lia]|].
  rewrite Hb. cbn. repeat split; [|lia].
  destruct (uvicorn pf); discriminate.
Qed.

Lemma bind_failure_is_fatal_witness :
  can_bind taken_world "0.0.0.0" 8000%N = false
  /\ exit_status (fst (main newer_platform "__main__" taken_world
                         (fresh initial))) <> 0
  /\ listening (trace (snd (main newer_platform "__main__" taken_world
                              (fresh initial)))) = []
  /\ served (trace (snd (main newer_platform "__main__" taken_world
                           (fresh initial)))) = []
  /\ length (bind_attempts
               (trace (snd (main newer_platform "__main__" taken_world
                              (fresh initial))))) <= 1.
Proof.
  split; [reflexivity|].
  apply (bind_failure_is_fatal newer_platform taken_world initial). reflexivity.
Defined.

(** C10: imported, that is run with a [__name__] other than [__main__], the
    module builds the application, with the CORS middleware as its one
    middleware and [GET /health] routed to the handler, and does nothing
    else: the process is left as it was, so nothing is printed and no port
    is bound. *)
Theorem import_only_builds_app {Globals : Type} (pf : platform)
    (name : string) (w : world) (p : process (state Globals)) :
  name <> "__main__" ->
  main pf name w p = (Done (app pf), p)
  /\ user_middleware (@app Globals pf) = [Middleware_CORS cors]
  /\ find_route (routes (@app Globals pf)) "GET" "/health" None
     = Some (APIRoute "/health" health ["GET"])
  /\ printed (trace (snd (main pf name w p))) = printed (trace p)
  /\ bind_attempts (trace (snd (main pf name w p))) = bind_attempts (trace p).
Proof.
  intros Hn. unfold main.
  destruct (String.eqb name "__main__") eqn:E.
  - apply String.eqb_eq in E. contradiction.
  - destruct pf as [hf pint uv]. destruct hf; repeat split.
Qed.

Lemma import_only_builds_app_witness :
  "main" <> "__main__"
  /\ main older_platform "main" configured_world (fresh initial)
     = (Done (app older_platform), fresh initial)
  /\ printed (trace (snd (main older_platform "main" configured_world
                            (fresh initial)))) = []
  /\ bind_attempts (trace (snd (main older_platform "main" configured_world
                                  (fresh initial)))) = [].
Proof.
  assert (Hn : "main" <> "__main__") by discriminate.
  split; [exact Hn|].
  destruct (import_only_builds_app older_platform "main" configured_world
              (fresh initial) Hn)
    as [Hm [_ [_ [Hp Hb]]]].
  split; [exact Hm|]. split; [exact Hp|exact Hb].
Defined.

End EntryPoint.

(** ** Laws of the whole service *)

Module ServiceLaws.
Import Http Starlette FastAPI Process Main Service Samples Laws.
Import HeaderFacts ServiceFacts.

Lemma documented_registered (p : string) :
  documented p = true -> registered p = true.
Proof.
  unfold documented, registered. rewrite existsb_app. now intros ->.
Qed.

Lemma health_registered (p : string) :
  path_regex_match "/health" p = true -> registered p = true.
Proof.
  unfold registered. rewrite existsb_app. intros H. cbn [existsb].
  rewrite H. now rewrite orb_true_r.
Qed.

Lemma mem_get (m : string) : Text.mem m ["GET"] = true -> m = "GET".
Proof.
  unfold Text.mem. cbn [existsb]. rewrite orb_false_r. apply String.eqb_eq.
Qed.

(** X3: the health body is given to nobody but a [GET] on the health
    route: a response that carries it answers a request whose method is
    [GET] and whose path is [/health] (or [/health] and a newline, which the
    route's expression accepts too). *)
Theorem health_body_only_for_get {Globals : Type} (pf : platform)
    (req : request) (s : state Globals) :
  resp_body (fst (respond pf req s)) = BJson health_body ->
  method req = "GET"
  /\ (path req = "/health" \/ path req = String.append "/health" newline).
Proof.
  rewrite respond_pure. cbn [fst]. intros Hb.
  destruct (is_preflight req) eqn:Hp.
  - destruct (service_preflight_answer pf req Hp) as [rm [_ [_ E]]].
    rewrite E in Hb. discriminate Hb.
  - destruct (redirect_fails req) eqn:Hf.
    + rewrite (service_error pf req Hf) in Hb. discriminate Hb.
    + destruct (outcome_returned pf req Hf Hp) as [r E].
      destruct (service_keeps_route pf req r Hp E) as [_ Eb]. rewrite Eb in Hb.
      pose proof (route_outcome_routed pf req) as Hr. rewrite E in Hr.
      inversion Hr as [Hh Hm| | | | | |]; subst; try discriminate Hb.
      split; [now apply mem_get|].
      unfold path_regex_match in Hh. apply orb_prop in Hh.
      destruct Hh as [Hh|Hh]; apply String.eqb_eq in Hh; auto.
Qed.

Lemma health_body_only_for_get_witness :
  resp_body (fst (respond older_platform get_health_newline initial))
  = BJson health_body
  /\ method get_health_newline = "GET"
  /\ (path get_health_newline = "/health"
      \/ path get_health_newline = String.append "/health" newline).
Proof.
  split; [reflexivity|].
  apply (health_body_only_for_get older_platform get_health_newline initial).
  reflexivity.
Defined.

(** The statuses the router gives. *)
Lemma routed_status (pf : platform) (req : request) (r : response) :
  routed pf req (Returned r) -> In (status r) [200; 307; 404; 405].
Proof.
  intros H. inversion H; subst; cbn; auto.
Qed.

(** X4: whatever the request, the status is one of 200, 307, 400, 404, 405
    and 500; 500 is the answer exactly when the redirect for a trailing
    slash fails on a query string that does not decode, and 400 is kept for
    preflights. *)
Theorem status_is_one_of_six {Globals : Type} (pf : platform)
    (req : request) (s : state Globals) :
  In (status (fst (respond pf req s))) [200; 307; 400; 404; 405; 500]
  /\ (status (fst (respond pf req s)) = 500 <-> redirect_fails req = true)
  /\ (status (fst (respond pf req s)) = 400 -> is_preflight req = true).
Proof.
  rewrite respond_pure. cbn [fst].
  destruct (redirect_fails req) eqn:Hf.
  - rewrite (service_error pf req Hf). cbn.
    split; [auto 8|]. split; [tauto|discriminate].
  - destruct (is_preflight req) eqn:Hp.
    + destruct (service_preflight_answer pf req Hp) as [rm [_ [E _]]].
      rewrite E. destruct (Text.mem rm ALL_METHODS); cbn;
        (split; [auto 8|]); (split; [split; discriminate|reflexivity]).
    + destruct (outcome_returned pf req Hf Hp) as [r E].
      destruct (service_keeps_route pf req r Hp E) as [Es _]. rewrite Es.
      pose proof (route_outcome_routed pf req) as Hr. rewrite E in Hr.
      pose proof (routed_status pf req r Hr) as Hin. cbn in Hin.
      destruct Hin as [<-|[<-|[<-|[<-|[]]]]]; cbn;
        (split; [auto 8|]); (split; [split; discriminate|discriminate]).
Qed.

(** The [location] header survives the CORS layer. *)
Lemma service_location (pf : platform) (req : request) (r : response) :
  is_preflight req = false ->
  route_outcome pf req = Returned r ->
  get_header "location" (resp_headers (service_response pf req))
  = get_header "location" (resp_headers r).
Proof.
  intros Hp E.
  destruct (get_header "origin" (req_headers req)) as [origin|] eqn:Ho.
  - rewrite (service_simple pf req origin Ho Hp), E, cors_send_policy.
    cbv zeta. destruct (contains "cookie" (req_headers req)).
    + rewrite get_add_vary_other by discriminate.
      now rewrite !get_set_header_other by discriminate.
    + now rewrite !get_set_header_other by discriminate.
  - now rewrite (service_without_origin pf req Ho), E.
Qed.

(** X6: a request that is no preflight and whose path no route accepts is
    answered with 404 and [{"detail": "Not Found"}], unless stripping its
    trailing slashes, or adding one, gives a path some route accepts: then
    it is redirected there with 307, an empty body and the quoted URL as
    [Location], or, when the query string of the URL does not decode,
    answered with the bare 500 of the server-error layer. *)
Theorem unregistered_path {Globals : Type} (pf : platform)
    (req : request) (s : state Globals) :
  is_preflight req = false ->
  registered (path req) = false ->
  if registered (redirect_path (path req))
  then match URL req (redirect_path (path req)) with
       | Some url =>
           status (fst (respond pf req s)) = 307
           /\ resp_body (fst (respond pf req s)) = BEmpty
           /\ get_header "location" (resp_headers (fst (respond pf req s)))
              = Some (Text.quote ":/%#?=@[]!$&'()*+,;" url)
       | None =>
           fst (respond pf req s)
           = mkResponse 500 [] (BText "Internal Server Error")
       end
  else status (fst (respond pf req s)) = 404
       /\ resp_body (fst (respond pf req s))
          = BJson (JObject [("detail", JString "Not Found")]).
Proof.
  intros Hp Hr. rewrite respond_pure. cbn [fst].
  pose proof (route_outcome_unregistered pf req Hr) as E.
  unfold unregistered_outcome in E.
  destruct (registered (redirect_path (path req))) eqn:Hrd.
  - assert (Hroot : String.eqb (path req) "/" = false).
    { destruct (String.eqb (path req) "/") eqn:Eroot; [|reflexivity].
      apply String.eqb_eq in Eroot. rewrite Eroot in Hrd.
      rewrite redirect_of_root_unregistered in Hrd. discriminate. }
    rewrite Hroot in E. cbn [negb andb] in E.
    destruct (URL req (redirect_path (path req))) as [url|] eqn:Hu.
    + destruct (service_keeps_route pf req _ Hp E) as [-> ->].
      rewrite (service_location pf req _ Hp E).
      repeat split.
    + apply service_error. unfold redirect_fails.
      apply URL_none in Hu. destruct Hu as [Hq Hv].
      now rewrite Hp, Hr, Hrd, Hq, Hv.
  - rewrite andb_false_r in E.
    destruct (service_keeps_route pf req _ Hp E) as [-> ->].
    split; reflexivity.
Qed.

Lemma unregistered_path_witness :
  is_preflight get_health_slash = false
  /\ registered (path get_health_slash) = false
  /\ status (fst (respond older_platform get_health_slash initial)) = 307
  /\ resp_body (fst (respond older_platform get_health_slash initial)) = BEmpty
  /\ get_header "location"
       (resp_headers (fst (respond older_platform get_health_slash initial)))
     = Some "http://localhost:8000/health?a=1".
Proof.
  split; [reflexivity|]. split; [reflexivity|].
  exact (unregistered_path older_platform get_health_slash initial
           eq_refl eq_refl).
Defined.



End ServiceLaws.

(** ** Laws of the CORS layer *)

Module CorsLaws.
Import Http Starlette FastAPI Process Main Service Samples Laws.
Import HeaderFacts ServiceFacts.

(** The router sets no header but [allow] or [location]. *)
Lemma routed_headers (pf : platform) (req : request) (r : response) :
  routed pf req (Returned r) ->
  resp_headers r = []
  \/ (exists v, resp_headers r = [("allow", v)])
  \/ (exists v, resp_headers r = [("location", v)]).
Proof.
  intros H; inversion H; subst; cbn; eauto.
Qed.

(** The headers of a response outside a preflight. *)
Lemma simple_headers_shape (pf : platform) (req : request)
    (origin : string) (r : response) :
  get_header "origin" (req_headers req) = Some origin ->
  is_preflight req = false ->
  route_outcome pf req = Returned r ->
  resp_headers (service_response pf req)
  = resp_headers r
    ++ (if contains "cookie" (req_headers req)
        then [("access-control-allow-origin", origin);
              ("access-control-allow-credentials", "true");
              ("vary", "Origin")]
        else [("access-control-allow-origin", "*");
              ("access-control-allow-credentials", "true")]).
Proof.
  intros Ho Hp E. rewrite (service_simple pf req origin Ho Hp), E.
  rewrite cors_send_policy. cbv zeta.
  pose proof (route_outcome_routed pf req) as Hr. rewrite E in Hr.
  destruct (routed_headers pf req r Hr) as [->|[[v ->]|[v ->]]];
    destruct (contains "cookie" (req_headers req)); reflexivity.
Qed.

Lemma preflight_headers_shape (pf : platform) (req : request) :
  is_preflight req = true ->
  exists origin,
    get_header "origin" (req_headers req) = Some origin
    /\ resp_headers (service_response pf req)
       = [("vary", "Origin");
          ("access-control-allow-methods",
           "DELETE, GET, HEAD, OPTIONS, PATCH, POST, PUT");
          ("access-control-max-age", "600");
          ("access-control-allow-credentials", "true");
          ("access-control-allow-origin", origin)]
         ++ match get_header "access-control-request-headers" (req_headers req) with
            | Some requested => [("access-control-allow-headers", requested)]
            | None => []
            end.
Proof.
  intros Hp. destruct (is_preflight_inv req Hp) as [o [rm [Ho [Hm Hr]]]].
  exists o. split; [exact Ho|].
  destruct (service_preflight pf req o rm Ho Hm Hr) as [_ ->].
  rewrite preflight_policy. cbv zeta.
  destruct (Text.mem rm ALL_METHODS); reflexivity.
Qed.

Ltac distinct_names :=
  repeat (constructor; [cbn; intuition discriminate|]); constructor.

(** X7: no response carries a header twice: the names of the headers of any
    response are pairwise distinct, so no browser ever sees two
    [Access-Control-Allow-Origin] values. *)
Theorem no_header_twice {Globals : Type} (pf : platform)
    (req : request) (s : state Globals) :
  NoDup (header_names (fst (respond pf req s))).
Proof.
  rewrite respond_pure. cbn [fst]. unfold header_names.
  destruct (is_preflight req) eqn:Hp.
  - destruct (preflight_headers_shape pf req Hp) as [o [_ ->]].
    destruct (get_header "access-control-request-headers" (req_headers req));
      cbn; distinct_names.
  - destruct (redirect_fails req) eqn:Hf.
    + rewrite (service_error pf req Hf). constructor.
    + destruct (outcome_returned pf req Hf Hp) as [r E].
      pose proof (route_outcome_routed pf req) as Hr. rewrite E in Hr.
      destruct (get_header "origin" (req_headers req)) as [origin|] eqn:Ho.
      * rewrite (simple_headers_shape pf req origin r Ho Hp E).
        destruct (routed_headers pf req r Hr) as [->|[[v ->]|[v ->]]];
          destruct (contains "cookie" (req_headers req)); cbn; distinct_names.
      * rewrite (service_without_origin pf req Ho), E.
        destruct (routed_headers pf req r Hr) as [->|[[v ->]|[v ->]]];
          cbn; distinct_names.
Qed.



End CorsLaws.

(** ** Trailing slashes *)

Module Slashes.
Import Http Starlette FastAPI Process Main Service Samples Laws.
Import HeaderFacts ServiceFacts.

Lemma rstrip_slashes (n : nat) : Text.rstrip_slash (slashes n) = EmptyString.
Proof.
  induction n as [|n IH]; [reflexivity|]. cbn [slashes Text.rstrip_slash].
  now rewrite IH.
Qed.

(** Stripping sees through the slashes appended to a path. *)
Lemma rstrip_slash_append (p : string) (n : nat) :
  Text.rstrip_slash (String.append p (slashes n)) = Text.rstrip_slash p.
Proof.
  induction p as [|c p IH]; cbn [String.append Text.rstrip_slash].
  - apply rstrip_slashes.
  - now rewrite IH.
Qed.

Lemma ends_with_slashes (n : nat) : Text.ends_with_slash (slashes (S n)) = true.
Proof.
  induction n as [|n IH]; [reflexivity|].
  cbn [slashes Text.ends_with_slash] in *. exact IH.
Qed.

Lemma ends_with_slash_append (p : string) (n : nat) :
  Text.ends_with_slash (String.append p (slashes (S n))) = true.
Proof.
  induction p as [|c p IH]; cbn [String.append].
  - apply ends_with_slashes.
  - cbn [Text.ends_with_slash].
    destruct (String.append p (slashes (S n))) eqn:E; [|exact IH].
    destruct p; discriminate E.
Qed.

(** A route's path with slashes after it is no route's path. *)
Lemma slashed_not_registered (pattern : string) (n : nat) :
  In pattern route_patterns ->
  registered (String.append pattern (slashes (S n))) = false.
Proof.
  intros Hin. cbn in Hin.
  destruct Hin as [<-|[<-|[<-|[<-|[<-|[]]]]]];
    destruct n; reflexivity.
Qed.

Lemma slashed_redirect_path (pattern : string) (n : nat) :
  In pattern route_patterns ->
  redirect_path (String.append pattern (slashes (S n))) = pattern.
Proof.
  intros Hin. unfold redirect_path.
  rewrite ends_with_slash_append, rstrip_slash_append.
  cbn in Hin. destruct Hin as [<-|[<-|[<-|[<-|[<-|[]]]]]]; reflexivity.
Qed.

Lemma pattern_registered (pattern : string) :
  In pattern route_patterns -> registered pattern = true.
Proof.
  intros Hin. cbn in Hin.
  destruct Hin as [<-|[<-|[<-|[<-|[<-|[]]]]]]; reflexivity.
Qed.

(** X11: a route's path followed by one or more slashes ([/health/],
    [/docs//], ...) is never served: whatever the method, a request for it
    that is no preflight, and whose query string decodes, is redirected to
    the route's path: status 307, an empty body, and the URL of the route's
    path, with the query string, as [Location]. *)
Theorem trailing_slashes_redirect {Globals : Type} (pf : platform)
    (req : request) (s : state Globals) (pattern url : string) (n : nat) :
  In pattern ["/openapi.json"; "/docs"; "/docs/oauth2-redirect"; "/redoc";
              "/health"] ->
  path req = String.append pattern (slashes (S n)) ->
  is_preflight req = false ->
  URL req pattern = Some url ->
  status (fst (respond pf req s)) = 307
  /\ resp_body (fst (respond pf req s)) = BEmpty
  /\ get_header "location" (resp_headers (fst (respond pf req s)))
     = Some (Text.quote ":/%#?=@[]!$&'()*+,;" url).
Proof.
  intros Hin Hpath Hp Hu. rewrite respond_pure. cbn [fst].
  change (In pattern route_patterns) in Hin.
  pose proof (slashed_not_registered pattern n Hin) as Hr.
  pose proof (slashed_redirect_path pattern n Hin) as Hrd.
  rewrite <- Hpath in Hr, Hrd.
  pose proof (route_outcome_unregistered pf req Hr) as E.
  unfold unregistered_outcome in E.
  rewrite Hrd, (pattern_registered pattern Hin), Hu in E.
  assert (Hroot : String.eqb (path req) "/" = false).
  { destruct (String.eqb (path req) "/") eqn:Eroot; [|reflexivity].
    apply String.eqb_eq in Eroot. rewrite Hpath in Eroot. cbn in Hin.
    destruct Hin as [<-|[<-|[<-|[<-|[<-|[]]]]]]; discriminate Eroot. }
  rewrite Hroot in E. cbn [negb andb] in E.
  destruct (service_keeps_route pf req _ Hp E) as [-> ->].
  rewrite (ServiceLaws.service_location pf req _ Hp E).
  repeat split.
Qed.

Lemma trailing_slashes_redirect_witness :
  path put_health_slashes = String.append "/health" (slashes 3)
  /\ is_preflight put_health_slashes = false
  /\ URL put_health_slashes "/health" = Some "http://127.0.0.1:8000/health?a=1"
  /\ status (fst (respond older_platform put_health_slashes initial)) = 307
  /\ resp_body (fst (respond older_platform put_health_slashes initial)) = BEmpty
  /\ get_header "location"
       (resp_headers (fst (respond older_platform put_health_slashes initial)))
     = Some "http://127.0.0.1:8000/health?a=1".
Proof.
  split; [reflexivity|]. split; [reflexivity|]. split; [reflexivity|].
  apply (trailing_slashes_redirect older_platform put_health_slashes initial
           "/health" "http://127.0.0.1:8000/health?a=1" 2);
    [cbn; tauto|reflexivity|reflexivity|reflexivity].
Defined.

End Slashes.

(** ** A run that starts *)

Module Run.
Import Http Starlette FastAPI Process Main Service Samples Laws.
Import HeaderFacts ServiceFacts.



End Run.
